(** * 0RG: interactive rclone backup assistant

    A shallow embedding of [0RG.py] and the properties of its remote health
    check, its folder navigator and its session orchestrator.

    Modelling conventions.
    - Python [str] values are Rocq [string]s whose characters are code
      points below 256 (ASCII and the Latin-1 supplement: an 8-bit character
      of Rocq stands for the code point of the same number, so that "SÍ" is
      the two characters 83 and 205).  On these the string methods below
      follow Python character by character, also where Python leaves ASCII:
      [str.lower] on the capitals 192-222, [str.strip] on the blanks 133 and
      160, [str.isdigit] on the superscripts 178, 179 and 185, which [int]
      refuses.  Text with code points from 256 on cannot be written in the
      model and no statement is made about it.
    - Printing, colouring and [clear()] have no influence on control flow and
      are left out; [input()] is kept, because every prompt (also [pause])
      consumes one line of the standard input.
    - Exceptions are values of type [exn]; a computation returns a [result]. *)

From Stdlib Require Import String Ascii List Bool Arith NArith ZArith Lia.
From Stdlib Require Import Permutation Sorted.
Import ListNotations.

Local Open Scope list_scope.
Local Open Scope string_scope.
Local Open Scope nat_scope.

(** ** Python string methods *)

Module PyStr.

(** The code point of a character. *)
Definition code (c : ascii) : nat := nat_of_ascii c.

(** The capitals below 256: A-Z, and 192-222 without the multiplication sign
    215. *)
Definition is_upper (c : ascii) : bool :=
  ((65 <=? code c) && (code c <=? 90))
  || ((192 <=? code c) && (code c <=? 222) && negb (code c =? 215)).

(** [ch.lower()] on one character: a capital becomes the letter 32 further. *)
Definition lower_char (c : ascii) : ascii :=
  if is_upper c then ascii_of_nat (code c + 32) else c.

(** [s.lower()] *)
Fixpoint lower (s : string) : string :=
  match s with
  | EmptyString => EmptyString
  | String c s' => String (lower_char c) (lower s')
  end.

(** White space as [str.strip()] and [str.isspace()] see it below 256:
    TAB, LF, VT, FF, CR, FS, GS, RS, US, SPACE, NEL (133) and the no-break
    space (160). *)
Definition is_space (c : ascii) : bool :=
  ((9 <=? code c) && (code c <=? 13)) || ((28 <=? code c) && (code c <=? 32))
  || (code c =? 133) || (code c =? 160).

(** [s.lstrip(chars)], the character set given as a predicate. *)
Fixpoint lstrip_by (p : ascii -> bool) (s : string) : string :=
  match s with
  | EmptyString => EmptyString
  | String c s' => if p c then lstrip_by p s' else s
  end.

(** [s.rstrip(chars)] *)
Fixpoint rstrip_by (p : ascii -> bool) (s : string) : string :=
  match s with
  | EmptyString => EmptyString
  | String c s' =>
      match rstrip_by p s' with
      | EmptyString => if p c then EmptyString else String c EmptyString
      | r => String c r
      end
  end.

Definition strip_by (p : ascii -> bool) (s : string) : string :=
  rstrip_by p (lstrip_by p s).

(** [s.strip()] *)
Definition strip (s : string) : string := strip_by is_space s.

(** [s.strip("/")] *)
Definition strip_slash (s : string) : string := strip_by (Ascii.eqb "/") s.

(** [s.rstrip(":")] *)
Definition rstrip_colon (s : string) : string := rstrip_by (Ascii.eqb ":") s.

(** [s.startswith(p)] *)
Definition startswith (s p : string) : bool := prefix p s.

(** [needle in hay] for two strings: substring search. *)
Fixpoint str_in (needle hay : string) : bool :=
  if prefix needle hay then true
  else match hay with
       | EmptyString => false
       | String _ hay' => str_in needle hay'
       end.

(** [x in (t1, t2, ...)] and [x in list_of_str]. *)
Fixpoint elem (x : string) (l : list string) : bool :=
  match l with
  | [] => false
  | y :: l' => String.eqb x y || elem x l'
  end.

(** The decimal digits 0-9, the only digits [int] reads. *)
Definition is_decimal (c : ascii) : bool := (48 <=? code c) && (code c <=? 57).

(** The characters [str.isdigit()] accepts below 256: the decimal digits and
    the superscripts two, three and one (178, 179, 185). *)
Definition is_digit (c : ascii) : bool :=
  is_decimal c || (code c =? 178) || (code c =? 179) || (code c =? 185).

Fixpoint all_digits (s : string) : bool :=
  match s with
  | EmptyString => true
  | String c s' => is_digit c && all_digits s'
  end.

(** [s.isdigit()]: at least one character, all of them digits. *)
Definition isdigit (s : string) : bool :=
  match s with
  | EmptyString => false
  | _ => all_digits s
  end.

Fixpoint int_acc (acc : N) (s : string) : option N :=
  match s with
  | EmptyString => Some acc
  | String c s' =>
      if is_decimal c then int_acc (10 * acc + N.of_nat (code c - 48)) s' else None
  end.

(** The longest numeral [int] converts: [sys.int_max_str_digits], 4300 by
    default in CPython (3.11 and the security releases of 3.7 to 3.10). *)
Definition int_max_str_digits : nat := 4300.

(** [int(s)] for a string made of digit characters, as the callers pass it
    (they test [isdigit] first): [None] is the [ValueError] that [int] raises
    for a character that is no decimal digit and for a numeral of more than
    4300 characters, leading zeros counted. *)
Definition int (s : string) : option N :=
  match s with
  | EmptyString => None
  | _ => if int_max_str_digits <? String.length s then None else int_acc 0 s
  end.

(** Line boundaries of [str.splitlines()] below 256: LF, VT, FF, CR, FS, GS,
    RS and NEL (133). *)
Definition is_linebreak (c : ascii) : bool :=
  ((10 <=? code c) && (code c <=? 13)) || ((28 <=? code c) && (code c <=? 30))
  || (code c =? 133).

(** [s.splitlines()], every boundary character ending a line.  Python takes
    CR LF as one boundary; here it yields one more empty line, which the only
    caller ([get_remotes]) filters out. *)
Fixpoint splitlines_acc (cur : string) (s : string) : list string :=
  match s with
  | EmptyString => match cur with EmptyString => [] | _ => [cur] end
  | String c s' =>
      if is_linebreak c then cur :: splitlines_acc EmptyString s'
      else splitlines_acc (cur ++ String c EmptyString) s'
  end.

Definition splitlines (s : string) : list string := splitlines_acc EmptyString s.

(** [sep.join(l)] *)
Definition join (sep : string) (l : list string) : string := String.concat sep l.

(** [x or d] on strings: the empty string is falsy. *)
Definition or_else (x d : string) : string :=
  match x with EmptyString => d | _ => x end.

(** The specification-side reading of [needle in hay]. *)
Definition contains (hay needle : string) : Prop :=
  exists pre post, hay = pre ++ needle ++ post.

End PyStr.
Import PyStr.

(** The yes token with the accented letter: s followed by the code point 237
    (i with acute). *)
Definition si_accent : string := String "s" (String (ascii_of_nat 237) EmptyString).

(** The help tokens every help-aware prompt tests for: [("h", "help", "?")]. *)
Definition is_help (ans : string) : bool := elem ans ["h"; "help"; "?"].

(** ** Paths ([pathlib.Path] on a POSIX system) *)

Module PyPath.

(** A path is its anchor (the empty string for a relative path, ["/"] or
    ["//"] for an absolute one) and the list of its components. *)
Record Path : Type := mkPath { anchor : string; parts : list string }.

Fixpoint split_slash_acc (cur : string) (s : string) : list string :=
  match s with
  | EmptyString => [cur]
  | String c s' =>
      if Ascii.eqb c "/" then cur :: split_slash_acc EmptyString s'
      else split_slash_acc (cur ++ String c EmptyString) s'
  end.

Definition is_component (x : string) : bool :=
  negb (String.eqb x "") && negb (String.eqb x ".").

Definition parse_anchor (s : string) : string :=
  if prefix "///" s then "/"
  else if prefix "//" s then "//"
  else if prefix "/" s then "/"
  else "".

(** [Path(s)]: empty and ["."] components vanish. *)
Definition of_string (s : string) : Path :=
  mkPath (parse_anchor s) (filter is_component (split_slash_acc EmptyString s)).

(** [str(p)] *)
Definition to_string (p : Path) : string :=
  match anchor p, parts p with
  | EmptyString, [] => "."
  | a, ps => a ++ join "/" ps
  end.

(** [p.name]: the last component, empty for a bare anchor and for ["."]. *)
Definition name (p : Path) : string := last (parts p) "".

(** [p.parent]: a path without components is its own parent. *)
Definition parent (p : Path) : Path := mkPath (anchor p) (removelast (parts p)).

(** [p / name], as [iterdir] and [home / "Documents"] build it. *)
Definition child (p : Path) (n : string) : Path :=
  mkPath (anchor p) (parts p ++ [n])%list.

Fixpoint parts_eqb (a b : list string) : bool :=
  match a, b with
  | [], [] => true
  | x :: a', y :: b' => String.eqb x y && parts_eqb a' b'
  | _, _ => false
  end.

(** [p == q] *)
Definition eqb (p q : Path) : bool :=
  String.eqb (anchor p) (anchor q) && parts_eqb (parts p) (parts q).

End PyPath.
Import PyPath.

(** ** The world the program runs in *)

(** What a directory listing and the file tests answer.  [None] stands for an
    [OSError] (permission denied, I/O error, vanished directory).
    - [iterdir p] is the list of entry names of [p];
    - [is_dir p] is [p.is_dir()], which reports a missing path as [false] and
      propagates the other errors;
    - [exists_ p] is [p.exists()], which likewise reports a missing path as
      [false] and propagates the other errors. *)
Record FileSystem : Type := mkFS {
  iterdir : Path -> option (list string);
  is_dir : Path -> option bool;
  exists_ : Path -> option bool
}.

(** How an external process ends: with an exit code (and, for
    [check_output], the captured text), or not started at all ([OSError]). *)
Inductive proc_result : Type :=
| Exited (rc : Z) (output : option string)
| SpawnFailed.

(** The date part of [datetime.now()]. *)
Record date : Type := mkDate { year : nat; month : nat; day : nat }.

(** The exceptions that can leave a function of the program. *)
Inductive exn : Type :=
| SystemExit (code : Z)
| EOFError
| CalledProcessError (rc : Z) (output : option string)
| OSError
| IndexError
| ValueError.

Inductive result (A : Type) : Type :=
| Ok (a : A)
| Raise (e : exn).
Arguments Ok {A} a.
Arguments Raise {A} e.

(** The state of a run.  [stdin] holds the lines the user will still type;
    [executed] the argument vectors of the invocations of the external tool
    made so far, oldest first (the cosmetic [clear] is not among them);
    [tool] what the external tool answers to an argument vector, given what
    was run before.  The file system, the clock and the environment are
    read-only during the run. *)
Record World : Type := mkWorld {
  stdin : list string;
  executed : list (list string);
  tool : list (list string) -> list string -> proc_result;
  which_rclone : option string;
  fs : FileSystem;
  home : Path;
  expand : string -> string;
  now : date
}.

Definition with_stdin (w : World) (i : list string) : World :=
  mkWorld i (executed w) (tool w) (which_rclone w) (fs w) (home w) (expand w) (now w).

Definition with_executed (w : World) (e : list (list string)) : World :=
  mkWorld (stdin w) e (tool w) (which_rclone w) (fs w) (home w) (expand w) (now w).

(** ** A state-and-exception monad for the orchestrator *)

Definition M (A : Type) : Type := World -> result A * World.

Definition ret {A} (a : A) : M A := fun w => (Ok a, w).

Definition raise {A} (e : exn) : M A := fun w => (Raise e, w).

Definition bind {A B} (m : M A) (k : A -> M B) : M B :=
  fun w => match m w with
           | (Ok a, w') => k a w'
           | (Raise e, w') => (Raise e, w')
           end.

Notation "x <- m ;; k" := (bind m (fun x => k))
  (at level 61, m at next level, right associativity).
Notation "m ;;; k" := (bind m (fun _ => k))
  (at level 61, right associativity).

(** A prompt loop reads lines only: it maps the pending input to a result and
    the input left over. *)
Definition Reader (A : Type) : Type := list string -> result A * list string.

Definition reading {A} (r : Reader A) : M A :=
  fun w => let (a, rest) := r (stdin w) in (a, with_stdin w rest).

(** [input(prompt)]: the next line, [EOFError] at the end of the input. *)
Definition input : Reader string :=
  fun i => match i with
           | [] => (Raise EOFError, [])
           | l :: rest => (Ok l, rest)
           end.

(** [subprocess.call(argv)]: run, log, return the exit code. *)
Definition call (argv : list string) : M Z :=
  fun w => let w' := with_executed w (executed w ++ [argv])%list in
           match tool w (executed w) argv with
           | Exited rc _ => (Ok rc, w')
           | SpawnFailed => (Raise OSError, w')
           end.

(** [subprocess.check_output(argv, text=True)]: the captured text, or
    [CalledProcessError] on a non-zero exit code. *)
Definition check_output (argv : list string) : M string :=
  fun w => let w' := with_executed w (executed w ++ [argv])%list in
           match tool w (executed w) argv with
           | Exited rc out =>
               if Z.eqb rc 0
               then (Ok (match out with Some s => s | None => "" end), w')
               else (Raise (CalledProcessError rc out), w')
           | SpawnFailed => (Raise OSError, w')
           end.

(** The status the operating system sees, with the [__main__] guard around
    [main()]: a normal return is 0, [SystemExit(c)] is the low eight bits of
    [c] (a child killed by signal 9 has the code -9, which gives 247), and an
    uncaught exception other than [SystemExit] is 1. *)
Definition exit_status (r : result unit) : Z :=
  match r with
  | Ok _ => 0
  | Raise (SystemExit c) => Z.modulo c 256
  | Raise _ => 1
  end.

(** ** Help and the generic prompts (lines 85-120) *)

(** [pause]: one [input] whose answer is dropped. *)
Definition pause : Reader unit :=
  fun i => match input i with
           | (Ok _, rest) => (Ok tt, rest)
           | (Raise e, rest) => (Raise e, rest)
           end.

(** [show_help]: print the help text, then [pause]. *)
Definition show_help : Reader unit := pause.

(** [ask(prompt, default)] *)
Definition ask (default : option string) : Reader string :=
  fun i => match i with
           | [] => (Raise EOFError, [])
           | l :: rest =>
               let ans := strip l in
               if is_help (lower ans) then
                 match show_help rest with
                 | (Ok _, rest') => (Ok "", rest')
                 | (Raise e, rest') => (Raise e, rest')
                 end
               else (Ok (or_else ans (match default with Some d => d | None => "" end)), rest)
           end.

(** [ask_yes_no(prompt, default_yes)] *)
Fixpoint ask_yes_no (default_yes : bool) (i : list string) : result bool * list string :=
  match i with
  | [] => (Raise EOFError, [])
  | l :: rest =>
      let ans := lower (strip l) in
      if is_help ans then
        match rest with
        | [] => (Raise EOFError, [])
        | _ :: rest' => ask_yes_no default_yes rest'
        end
      else if String.eqb ans "" then (Ok default_yes, rest)
      else if elem ans ["s"; "si"; si_accent; "y"; "yes"] then (Ok true, rest)
      else if elem ans ["n"; "no"] then (Ok false, rest)
      else ask_yes_no default_yes rest
  end.

(** ** The external tool (lines 127-218) *)

(** [require_rclone] *)
Definition require_rclone : M string :=
  fun w => match which_rclone w with
           | Some (String c r) => (Ok (String c r), w)
           | _ => (Raise (SystemExit 2), w)
           end.

Definition nonempty (s : string) : bool := negb (String.eqb s "").

(** [get_remotes]: any failure of the query yields the empty list. *)
Definition get_remotes (rclone : string) : M (list string) :=
  fun w => match check_output [rclone; "listremotes"] w with
           | (Ok out, w') =>
               (Ok (map (fun x => rstrip_colon (strip x))
                        (filter (fun x => nonempty (strip x)) (splitlines out))), w')
           | (Raise _, w') => (Ok [], w')
           end.

(** [pick_remote] *)
Fixpoint pick_remote (remotes : list string) (i : list string)
  : result string * list string :=
  match i with
  | [] => (Raise EOFError, [])
  | l :: rest =>
      let choice := strip l in
      if is_help (lower choice) then
        match rest with
        | [] => (Raise EOFError, [])
        | _ :: rest' => pick_remote remotes rest'
        end
      else if elem (lower choice) ["q"; "quit"; "salir"] then (Ok "", rest)
      else
        let picked :=
          if isdigit choice then
            match int choice with
            | None => Raise ValueError
            | Some idx =>
                Ok (if (1 <=? idx)%N && (idx <=? N.of_nat (length remotes))%N
                    then nth_error remotes (N.to_nat (idx - 1))
                    else None)
            end
          else Ok (if elem choice remotes then Some choice else None) in
        match picked with
        | Raise e => (Raise e, rest)
        | Ok (Some r) => (Ok r, rest)
        | Ok None =>
            match rest with
            | [] => (Raise EOFError, [])
            | _ :: rest' => pick_remote remotes rest'
            end
        end
  end.

(** The three outcomes of the health check. *)
Inductive HealthCheckResult : Type := HealthOK | NeedsReauth | Fatal.

(** [needs_reconnect], on the lower-cased diagnostic text (lines 185-190). *)
Definition needs_reconnect (msg : string) : bool :=
  str_in "empty token" msg
  || str_in "reconnect" msg
  || str_in "failed to create oauth client" msg
  || str_in "invalid_grant" msg.

(** The branch the [except] clause takes for a failure with captured text
    [output]: [msg = (e.output or "").lower()], then the test on
    [needs_reconnect]. *)
Definition classify_failure (output : option string) : HealthCheckResult :=
  let msg := lower (match output with Some s => or_else s "" | None => "" end) in
  if needs_reconnect msg then NeedsReauth else Fatal.

(** What the listing operation tells about the remote. *)
Definition classify (r : proc_result) : option HealthCheckResult :=
  match r with
  | Exited rc out => Some (if Z.eqb rc 0 then HealthOK else classify_failure out)
  | SpawnFailed => None
  end.

Definition lsd_cmd (rclone remote : string) : list string :=
  [rclone; "lsd"; remote ++ ":"].

Definition reconnect_cmd (rclone remote : string) : list string :=
  [rclone; "config"; "reconnect"; remote ++ ":"].

(** [remote_ok_or_fix] *)
Definition remote_ok_or_fix (rclone remote : string) : M unit :=
  fun w =>
    match check_output (lsd_cmd rclone remote) w with
    | (Ok _, w') => (Ok tt, w')
    | (Raise (CalledProcessError _ out), w') =>
        match classify_failure out with
        | NeedsReauth =>
            (yes <- reading (ask_yes_no true) ;;
             if negb yes then raise (SystemExit 2)
             else
               rc <- call (reconnect_cmd rclone remote) ;;
               if negb (Z.eqb rc 0) then raise (SystemExit rc)
               else
                 check_output (lsd_cmd rclone remote) ;;;
                 reading pause ;;;
                 ret tt) w'
        | _ =>
            (reading pause ;;; raise (SystemExit 2)) w'
        end
    | (Raise e, w') => (Raise e, w')
    end.

(** ** The folder navigator (lines 225-332) *)

(** [sorted(l, key=...)]: a stable insertion sort; an element goes in front of
    the first one whose key is not smaller. *)
Section SortedBy.
Context {A : Type} (key : A -> string).

Fixpoint insert_by (x : A) (l : list A) : list A :=
  match l with
  | [] => [x]
  | y :: l' => if String.leb (key x) (key y) then x :: l else y :: insert_by x l'
  end.

Fixpoint sorted_by (l : list A) : list A :=
  match l with
  | [] => []
  | x :: l' => insert_by x (sorted_by l')
  end.
End SortedBy.

(** The filter of the comprehension, [p.is_dir() and not p.name.startswith(".")],
    once [p.is_dir()] has answered. *)
Definition visible_dir (isd : bool) (p : Path) : bool :=
  isd && negb (startswith (name p) ".").

(** The list comprehension of [list_subfolders]: [None] as soon as one
    [is_dir] raises. *)
Fixpoint select_dirs (f : FileSystem) (entries : list Path) : option (list Path) :=
  match entries with
  | [] => Some []
  | p :: rest =>
      match is_dir f p with
      | None => None
      | Some isd =>
          match select_dirs f rest with
          | None => None
          | Some ds => Some (if visible_dir isd p then p :: ds else ds)
          end
      end
  end.

(** [list_subfolders] *)
Definition list_subfolders (f : FileSystem) (path : Path) : list Path :=
  match iterdir f path with
  | None => []
  | Some names =>
      match select_dirs f (map (child path) names) with
      | None => []
      | Some ds => sorted_by (fun x => lower (name x)) ds
      end
  end.

(** One turn of the loop of [folder_browser], after the answer has been
    stripped and lower-cased: what the loop does next. *)
Inductive nav : Type :=
| NavHelp                 (* show the help, stay *)
| NavQuit                 (* return None *)
| NavMove (p : Path)      (* continue with [current = p] *)
| NavSelected (p : Path)  (* return current *)
| NavInvalid              (* feedback and pause, stay *)
| NavCrash (e : exn)     (* [int(choice)] or the indexing raises *).

Definition browser_step (f : FileSystem) (current : Path) (choice : string) : nav :=
  let subs := list_subfolders f current in
  if is_help choice then NavHelp
  else if elem choice ["q"; "quit"] then NavQuit
  else if String.eqb choice "u" then
    NavMove (if negb (PyPath.eqb (parent current) current) then parent current else current)
  else if String.eqb choice "b" then NavSelected current
  else if isdigit choice then
    match int choice with
    | None => NavCrash ValueError
    | Some idx =>
        if (1 <=? idx)%N && (idx <=? N.of_nat (length subs))%N then
          match nth_error subs (N.to_nat (idx - 1)) with
          | Some p => NavMove p
          | None => NavCrash IndexError
          end
        else NavInvalid
    end
  else NavInvalid.

(** [folder_browser]: [Some p] is the selected directory, [None] a cancel. *)
Fixpoint folder_browser (f : FileSystem) (i : list string) (current : Path)
  : result (option Path) * list string :=
  match i with
  | [] => (Raise EOFError, [])
  | l :: rest =>
      match browser_step f current (lower (strip l)) with
      | NavQuit => (Ok None, rest)
      | NavSelected p => (Ok (Some p), rest)
      | NavMove p => folder_browser f rest p
      | NavCrash e => (Raise e, rest)
      | NavHelp | NavInvalid =>
          match rest with
          | [] => (Raise EOFError, [])
          | _ :: rest' => folder_browser f rest' current
          end
      end
  end.

(** [next((p for p in candidates if p.exists()), None)]; an error of
    [p.exists()] leaves the generator. *)
Fixpoint first_existing (f : FileSystem) (candidates : list Path) : result (option Path) :=
  match candidates with
  | [] => Ok None
  | p :: candidates' =>
      match exists_ f p with
      | None => Raise OSError
      | Some true => Ok (Some p)
      | Some false => first_existing f candidates'
      end
  end.

Section ChooseSource.
Variables (f : FileSystem) (expandf : string -> string) (docs desk : option Path).

(** The loop of [choose_source_folder]. *)
Fixpoint choose_loop (i : list string) : result (option Path) * list string :=
  match i with
  | [] => (Raise EOFError, [])
  | l :: rest =>
      let default := match docs with Some _ => "1" | None => "3" end in
      let choice := or_else (lower (strip l)) default in
      let retry := match rest with
                   | [] => (Raise EOFError, [])
                   | _ :: rest' => choose_loop rest'
                   end in
      if is_help choice then retry
      else if elem choice ["q"; "quit"] then (Ok None, rest)
      else
        match String.eqb choice "1", docs, String.eqb choice "2", desk with
        | true, Some d, _, _ => folder_browser f rest d
        | _, _, true, Some d => folder_browser f rest d
        | _, _, _, _ =>
            if String.eqb choice "3" then
              match rest with
              | [] => (Raise EOFError, [])
              | m :: rest2 =>
                  let manual := strip m in
                  let retry2 := match rest2 with
                                | [] => (Raise EOFError, [])
                                | _ :: rest3 => choose_loop rest3
                                end in
                  if is_help (lower manual) then retry2
                  else
                    let p := of_string (expandf manual) in
                    match exists_ f p with
                    | None => (Raise OSError, rest2)
                    | Some false => retry2
                    | Some true =>
                        match is_dir f p with
                        | None => (Raise OSError, rest2)
                        | Some true => folder_browser f rest2 p
                        | Some false => retry2
                        end
                    end
              end
            else retry
        end
  end.
End ChooseSource.

(** [choose_source_folder]: the two shortcuts are looked up before the first
    prompt. *)
Definition choose_source_folder : M (option Path) :=
  fun w =>
    match first_existing (fs w) [child (home w) "Documentos"; child (home w) "Documents"] with
    | Raise e => (Raise e, w)
    | Ok docs =>
        match first_existing (fs w) [child (home w) "Escritorio"; child (home w) "Desktop"] with
        | Raise e => (Raise e, w)
        | Ok desk => reading (choose_loop (fs w) (expand w) docs desk) w
        end
    end.

(** ** The session orchestrator ([main], lines 339-466) *)

Definition digit (n : nat) : string :=
  String (ascii_of_nat (48 + n mod 10)) EmptyString.

Definition pad2 (n : nat) : string := digit (n / 10) ++ digit n.

Definition pad4 (n : nat) : string :=
  digit (n / 1000) ++ digit (n / 100) ++ digit (n / 10) ++ digit n.

(** [d.strftime("%Y-%m-%d")], the year written with four digits. *)
Definition strftime_Ymd (d : date) : string :=
  pad4 (year d) ++ "-" ++ pad2 (month d) ++ "-" ++ pad2 (day d).

(** The construction of [cmd] (lines 421-428). *)
Definition build_cmd (rclone : string) (source_path : Path) (remote dest : string)
    (use_versions : bool) (versions_base : string) (today : date)
    (dry_run show_progress : bool) : list string :=
  let cmd := [rclone; "copy"; to_string source_path; remote ++ ":" ++ dest; "--fast-list"] in
  let cmd := if use_versions
             then app cmd ["--backup-dir"; remote ++ ":" ++ versions_base ++ "/" ++ strftime_Ymd today]
             else cmd in
  let cmd := if dry_run then app cmd ["--dry-run"] else cmd in
  let cmd := if show_progress then app cmd ["--progress"] else cmd in
  cmd.

(** [default_remote] (line 369); [remotes[0]] raises on the empty list. *)
Definition default_remote (remotes : list string) : result string :=
  if elem "gdrive" remotes then Ok "gdrive"
  else match remotes with
       | r :: _ => Ok r
       | [] => Raise IndexError
       end.

(** Lines 443-466: the final confirmation and the execution of [cmd]. *)
Definition main_confirm (cmd : list string) : M unit :=
  l <- reading input ;;
  let go := or_else (lower (strip l)) "s" in
  if is_help go then reading show_help ;;; ret tt
  else if elem go ["n"; "no"; "q"; "quit"] then ret tt
  else
    rc <- call cmd ;;
    if negb (Z.eqb rc 0) then raise (SystemExit rc)
    else reading pause ;;; ret tt.

(** Lines 409-416: the versioning question and the folder of the versions. *)
Definition main_versions : M (bool * string) :=
  use_versions <- reading (ask_yes_no true) ;;
  let versions_base := "Backup0RG_Versiones" in
  if use_versions then
    l <- reading input ;;
    custom <- (if is_help (lower (strip l))
               then reading show_help ;;; l2 <- reading input ;; ret (strip l2)
               else ret (strip l)) ;;
    ret (true, strip_slash (or_else custom versions_base))
  else ret (false, versions_base).

(** Lines 399-428: the backup parameters and the command built from them. *)
Definition main_backup (rclone remote : string) (source_path : Path) : M (list string) :=
  l <- reading input ;;
  let dest := strip_slash (or_else (strip l) "Backup0RG") in
  v <- main_versions ;;
  dry_run <- reading (ask_yes_no true) ;;
  show_progress <- reading (ask_yes_no true) ;;
  fun w =>
    (Ok (build_cmd rclone source_path remote dest (fst v) (snd v) (now w)
           dry_run show_progress), w).

(** Lines 391-466: everything that follows the choice of the remote. *)
Definition main_with_remote (rclone remote : string) : M unit :=
  remote_ok_or_fix rclone remote ;;;
  source_path <- choose_source_folder ;;
  match source_path with
  | None => ret tt
  | Some src =>
      cmd <- main_backup rclone remote src ;;
      main_confirm cmd
  end.

(** Lines 368-389: the default remote and its confirmation.  [None] is the
    [return] of [main]; [Some r] the remote the run goes on with. *)
Definition main_select_remote (remotes : list string) : M (option string) :=
  match default_remote remotes with
  | Raise e => raise e
  | Ok default =>
      l <- reading input ;;
      let ans := or_else (lower (strip l)) "s" in
      if is_help ans then reading show_help ;;; ret None
      else if elem ans ["q"; "quit"] then ret None
      else if elem ans ["n"; "no"] then
        remote <- reading (pick_remote remotes) ;;
        match remote with
        | EmptyString => ret None
        | _ => ret (Some remote)
        end
      else ret (Some default)
  end.

(** Lines 368-466. *)
Definition main_with_remotes (rclone : string) (remotes : list string) : M unit :=
  sel <- main_select_remote remotes ;;
  match sel with
  | None => ret tt
  | Some remote => main_with_remote rclone remote
  end.

(** [main] *)
Definition main : M unit :=
  reading pause ;;;
  rclone <- require_rclone ;;
  remotes <- get_remotes rclone ;;
  match remotes with
  | [] =>
      yes <- reading (ask_yes_no true) ;;
      if negb yes then ret tt
      else
        rc <- call [rclone; "config"] ;;
        if negb (Z.eqb rc 0) then raise (SystemExit rc)
        else
          remotes <- get_remotes rclone ;;
          match remotes with
          | [] => raise (SystemExit 2)
          | _ => main_with_remotes rclone remotes
          end
  | _ => main_with_remotes rclone remotes
  end.

(** The transfer commands among the processes a run has executed: the
    argument vectors whose verb is [copy]. *)
Definition is_transfer (argv : list string) : bool :=
  match argv with
  | _ :: verb :: _ => String.eqb verb "copy"
  | _ => false
  end.

(** ** Vocabulary of the properties *)

(** The authorization-failure markers, in the order the code tests them. *)
Definition auth_markers : list string :=
  ["empty token"; "reconnect"; "failed to create oauth client"; "invalid_grant"].

(** The text the handler inspects: [e.output or ""]. *)
Definition diagnostic (output : option string) : string :=
  match output with Some s => s | None => "" end.

(** The optional flags of a command: what follows the five fixed words
    [rclone copy <source> <remote>:<dest> --fast-list]. *)
Definition flags_of (cmd : list string) : list string := skipn 5 cmd.

Fixpoint has_char (c : ascii) (s : string) : bool :=
  match s with
  | EmptyString => false
  | String d s' => Ascii.eqb c d || has_char c s'
  end.

(** [a] may stand in front of [b] in a list sorted by [key]. *)
Definition key_le {A : Type} (key : A -> string) (a b : A) : Prop :=
  String.leb (key a) (key b) = true.

(** Sorted case-insensitively by name. *)
Definition sorted_by_name : list Path -> Prop :=
  StronglySorted (key_le (fun p => lower (name p))).

(** [p.is_dir()] answered [True]. *)
Definition is_directory (f : FileSystem) (p : Path) : bool :=
  match is_dir f p with Some true => true | _ => false end.

(** The entry [n] of [path] is a directory and its name has no leading dot. *)
Definition listed (f : FileSystem) (path : Path) (n : string) : bool :=
  is_directory f (child path n) && negb (startswith n ".").

(** The listing of [dir] shows [q] under the number [choice]. *)
Definition shown_at (f : FileSystem) (dir : Path) (choice : string) (q : Path) : Prop :=
  isdigit choice = true
  /\ exists k,
       int choice = Some k
       /\ (1 <= k)%N
       /\ nth_error (list_subfolders f dir) (N.to_nat (k - 1)) = Some q.

(** The value of a string of decimal digits, read independently of the
    program: [None] when a character is not one of 0-9. *)
Fixpoint decimal_value_from (acc : nat) (s : string) : option nat :=
  match s with
  | EmptyString => Some acc
  | String c s' =>
      match index 0 (String c EmptyString) "0123456789" with
      | Some v => decimal_value_from (10 * acc + v) s'
      | None => None
      end
  end.

Definition decimal_value (s : string) : option nat := decimal_value_from 0 s.

(** [numeral width v s]: [s] is the number [v] written with exactly [width]
    decimal digits. *)
Definition numeral (width v : nat) (s : string) : Prop :=
  String.length s = width /\ decimal_value s = Some v.

(** [iso_date d s]: [s] is the date [d] in the form YYYY-MM-DD. *)
Definition iso_date (d : date) (s : string) : Prop :=
  exists y m dd,
    s = y ++ "-" ++ m ++ "-" ++ dd
    /\ numeral 4 (year d) y /\ numeral 2 (month d) m /\ numeral 2 (day d) dd.

(** The dates the clock can give and whose year has four digits. *)
Definition four_digit_date (d : date) : Prop :=
  1000 <= year d < 10 * 1000 /\ 1 <= month d <= 12 /\ 1 <= day d <= 31.

(** Case, described without the program's [lower]: the capitals below 256
    are A-Z and the accented capitals 192-222 (215, the multiplication sign,
    is none); the small letter of a capital lies 32 further. *)
Definition capital (c : ascii) : Prop :=
  65 <= code c <= 90 \/ (192 <= code c <= 222 /\ code c <> 215).

(** Two characters that are equal or are the two cases of one letter. *)
Definition case_pair (a b : ascii) : Prop :=
  a = b
  \/ (capital a /\ code b = code a + 32)
  \/ (capital b /\ code a = code b + 32).

(** Two strings that differ in the case of their letters at most. *)
Fixpoint same_ignoring_case (s t : string) : Prop :=
  match s, t with
  | EmptyString, EmptyString => True
  | String a s', String b t' => case_pair a b /\ same_ignoring_case s' t'
  | _, _ => False
  end.

(** A string without capitals. *)
Fixpoint caseless (s : string) : Prop :=
  match s with
  | EmptyString => True
  | String c s' => ~ capital c /\ caseless s'
  end.

(** [case_key n k]: [k] is [n] with its capitals replaced by small letters. *)
Definition case_key (n k : string) : Prop := same_ignoring_case n k /\ caseless k.

(** [a] comes no later than [b] when case is ignored: the strings compare so
    once their capitals are replaced by small letters. *)
Definition ci_le (a b : string) : Prop :=
  exists ka kb, case_key a ka /\ case_key b kb /\ String.leb ka kb = true.

(** The number of transfer commands a run has executed. *)
Definition transfers (w : World) : nat := length (filter is_transfer (executed w)).

(** ** Sample worlds

    A small home directory, and external tools in four conditions, for the
    concrete runs below. *)

Module Sample.

Definition nl : string := String (ascii_of_nat 10) EmptyString.

Definition home_u : Path := mkPath "/" ["home"; "u"].
Definition documents : Path := child home_u "Documents".
Definition beta : Path := child documents "beta".

Definition tree : FileSystem :=
  mkFS
    (fun p =>
       if PyPath.eqb p home_u then Some [".cache"; "Documents"; "notes.txt"; "Desktop"]
       else if PyPath.eqb p documents then Some ["zeta"; ".git"; "Alpha"; "todo.txt"; "beta"]
       else if PyPath.eqb (parent p) documents then Some []
       else None)
    (fun p => Some (negb (elem (name p) ["notes.txt"; "todo.txt"])))
    (fun p => Some (elem (to_string p)
                      ["/home/u"; "/home/u/Documents"; "/home/u/Desktop";
                       "/home/u/Documents/Alpha"; "/home/u/Documents/beta";
                       "/home/u/Documents/zeta"])).

(** Two names with an accented first letter: Angel with the capital A with
    acute (193) and abaco with the small one (225). *)
Definition Angel : string := String (ascii_of_nat 193) "ngel".
Definition abaco : string := String (ascii_of_nat 225) "baco".

(** A file system whose every directory holds the same six folders, their
    names differing in case. *)
Definition mixed_case : FileSystem :=
  mkFS (fun _ => Some ["b"; "B"; Angel; "a"; abaco; "A"])
       (fun _ => Some true)
       (fun _ => Some true).

Definition verb (argv : list string) : string := nth 1 argv "".

Definition two_remotes : proc_result := Exited 0 (Some ("gdrive:" ++ nl ++ "work:" ++ nl)).

(** Every command succeeds. *)
Definition healthy_tool (_ : list (list string)) (argv : list string) : proc_result :=
  if String.eqb (verb argv) "listremotes" then two_remotes else Exited 0 (Some "").

(** The token has expired; the listing works again once [config reconnect]
    has been run. *)
Definition expired_tool (history : list (list string)) (argv : list string) : proc_result :=
  if String.eqb (verb argv) "listremotes" then two_remotes
  else if String.eqb (verb argv) "lsd" then
    if existsb (fun a => String.eqb (verb a) "config") history
    then Exited 0 (Some "")
    else Exited 1 (Some "couldn't fetch token: invalid_grant: Token has been expired")
  else Exited 0 None.

(** The reauthorization ends well and repairs nothing. *)
Definition stubborn_tool (_ : list (list string)) (argv : list string) : proc_result :=
  if String.eqb (verb argv) "listremotes" then two_remotes
  else if String.eqb (verb argv) "lsd" then
    Exited 1 (Some "Failed to create OAuth client: empty token found")
  else Exited 0 None.

(** The token is missing and the reauthorization exits with the code 5. *)
Definition refusing_tool (_ : list (list string)) (argv : list string) : proc_result :=
  if String.eqb (verb argv) "listremotes" then two_remotes
  else if String.eqb (verb argv) "lsd" then
    Exited 1 (Some "Failed to create OAuth client: empty token found")
  else Exited 5 None.

(** No remote is configured. *)
Definition unconfigured_tool (_ : list (list string)) (_ : list string) : proc_result :=
  Exited 0 (Some "").

(** A run on 2024-01-02 with the given tool and the lines the user types. *)
Definition world (t : list (list string) -> list string -> proc_result)
    (lines : list string) : World :=
  mkWorld lines [] t (Some "/usr/bin/rclone") tree home_u (fun s => s) (mkDate 2024 1 2).

End Sample.

(** ** Vocabulary of the further properties *)

(** The answers that end a yes/no prompt, and the value each one gives. *)
Definition decisive (l : string) : bool :=
  let ans := lower (strip l) in
  String.eqb ans "" || elem ans ["s"; "si"; si_accent; "y"; "yes"] || elem ans ["n"; "no"].

Definition answer (default_yes : bool) (l : string) : bool :=
  let ans := lower (strip l) in
  if String.eqb ans "" then default_yes else elem ans ["s"; "si"; si_accent; "y"; "yes"].


(** The last character of a string, if any. *)
Fixpoint last_char (s : string) : option ascii :=
  match s with
  | EmptyString => None
  | String c EmptyString => Some c
  | String _ s' => last_char s'
  end.

(** The first character of a string, if any. *)
Definition first_char (s : string) : option ascii :=
  match s with
  | EmptyString => None
  | String c _ => Some c
  end.

(** [holds p o]: the character [o], if there is one, satisfies [p]. *)
Definition holds (p : ascii -> bool) (o : option ascii) : bool :=
  match o with Some c => p c | None => false end.

(** [any_char p s]: some character of [s] satisfies [p]. *)
Fixpoint any_char (p : ascii -> bool) (s : string) : bool :=
  match s with
  | EmptyString => false
  | String c s' => p c || any_char p s'
  end.

(** What [rclone listremotes] prints for the given remotes: each name,
    a colon, a line feed. *)
Fixpoint listremotes_output (names : list string) : string :=
  match names with
  | [] => EmptyString
  | n :: names' =>
      n ++ String ":" (String (ascii_of_nat 10) EmptyString) ++ listremotes_output names'
  end.

(** A remote name that survives the parsing unchanged: no leading blank, no
    line break inside, no colon at its end. *)
Definition plain_name (n : string) : Prop :=
  holds is_space (first_char n) = false
  /\ any_char is_linebreak n = false
  /\ holds (Ascii.eqb ":") (last_char n) = false.

(** A folder name on the remote as the commands carry it: without a slash at
    either end. *)
Definition slashless (s : string) : Prop :=
  holds (Ascii.eqb "/") (first_char s) = false
  /\ holds (Ascii.eqb "/") (last_char s) = false.

(** The invocations of the tool other than the transfer: the query for the
    remotes, the setup wizard, the listing of a remote and its
    reauthorization. *)
Definition admin (rclone : string) (argv : list string) : Prop :=
  argv = [rclone; "listremotes"]
  \/ argv = [rclone; "config"]
  \/ exists remote, argv = lsd_cmd rclone remote \/ argv = reconnect_cmd rclone remote.

(** A transfer command as [build_cmd] makes it for the tool [rclone]. *)
Definition transfer_cmd (rclone : string) (argv : list string) : Prop :=
  exists src remote dest use_versions versions_base today dry_run show_progress,
    argv = build_cmd rclone src remote dest use_versions versions_base today
             dry_run show_progress.

(** The invocations of one session: administrative ones, followed by at most
    one transfer. *)
Definition session_log (rclone : string) (new : list (list string)) : Prop :=
  exists pre post,
    new = (pre ++ post)%list
    /\ Forall (admin rclone) pre
    /\ (post = [] \/ exists cmd, post = [cmd] /\ transfer_cmd rclone cmd).

(** [effect P R m]: whatever the world, running [m] appends to the log of
    invocations a list that satisfies [P], and a value it returns
    satisfies [R]. *)
Definition effect {A : Type} (P : list (list string) -> Prop) (R : A -> Prop) (m : M A) : Prop :=
  forall w, exists new,
    executed (snd (m w)) = (executed w ++ new)%list
    /\ P new
    /\ forall a, fst (m w) = Ok a -> R a.

(** A transfer command for the tool [rclone] from [src] to the remote
    [remote]. *)
Definition transfer_to (rclone : string) (src : Path) (remote : string)
    (argv : list string) : Prop :=
  exists dest use_versions versions_base today dry_run show_progress,
    argv = build_cmd rclone src remote dest use_versions versions_base today
             dry_run show_progress.

(** * Properties *)

(** ** Strings *)

Lemma prefix_app (p s : string) :
  prefix p s = true <-> exists post, s = p ++ post.
Proof.
  revert s; induction p as [|c p IH]; intros s.
  - destruct s; simpl; split; eauto.
  - destruct s as [|d s]; simpl.
    + split; [discriminate | intros [post H]; discriminate].
    + destruct (ascii_dec c d) as [->|Hne].
      * rewrite IH. split; intros [post H]; exists post.
        -- now rewrite H.
        -- now inversion H.
      * split; [discriminate | intros [post H]; inversion H; congruence].
Qed.

Lemma str_in_contains (needle hay : string) :
  str_in needle hay = true <-> contains hay needle.
Proof.
  unfold contains. induction hay as [|c hay IH]; cbn [str_in].
  - destruct (prefix needle "") eqn:E.
    + split; [intros _|reflexivity].
      apply prefix_app in E. destruct E as [post E]. now exists "", post.
    + split; [discriminate|]. intros [pre [post H]].
      destruct pre; simpl in H.
      * assert (prefix needle "" = true) by (apply prefix_app; eauto). congruence.
      * discriminate.
  - destruct (prefix needle (String c hay)) eqn:E.
    + split; [intros _|reflexivity].
      apply prefix_app in E. destruct E as [post E]. now exists "", post.
    + rewrite IH. split.
      * intros [pre [post H]]. exists (String c pre), post. simpl. now rewrite H.
      * intros [pre [post H]]. destruct pre as [|d pre]; simpl in H.
        -- assert (prefix needle (String c hay) = true) by (apply prefix_app; eauto).
           congruence.
        -- inversion H. eauto.
Qed.

Lemma lower_app (a b : string) : lower (a ++ b) = lower a ++ lower b.
Proof. induction a; simpl; [reflexivity | now rewrite IHa]. Qed.

Lemma or_else_empty (s : string) : or_else s "" = s.
Proof. now destruct s. Qed.

Lemma elem_In (x : string) (l : list string) : elem x l = true <-> In x l.
Proof.
  induction l as [|y l IH]; simpl.
  - split; [discriminate | tauto].
  - rewrite orb_true_iff, IH, String.eqb_eq. split; intros [H|H]; auto.
Qed.

(** ** C1: classification of a failed health check *)

Lemma needs_reconnect_markers (msg : string) :
  needs_reconnect msg = true <-> exists m, In m auth_markers /\ contains msg m.
Proof.
  unfold needs_reconnect, auth_markers.
  rewrite !orb_true_iff, !str_in_contains. simpl. split.
  - intros [[[H|H]|H]|H]; eexists; (split; [|exact H]); auto.
  - intros [m [[<-|[<-|[<-|[<-|[]]]]] H]]; auto.
Qed.

(** C1. Whatever text a failed listing produced, the failure is classified
    NeedsReauth exactly when the lower-cased text contains one of the four
    authorization-failure markers, and Fatal exactly when it contains none;
    in particular a text that contains "invalid_grant" gives NeedsReauth. *)
Theorem C1_failure_classification (output : option string) :
  (classify_failure output = NeedsReauth <->
     exists m, In m auth_markers /\ contains (lower (diagnostic output)) m)
  /\ (classify_failure output = Fatal <->
        ~ exists m, In m auth_markers /\ contains (lower (diagnostic output)) m)
  /\ (contains (diagnostic output) "invalid_grant" ->
        classify_failure output = NeedsReauth /\ classify_failure output <> Fatal).
Proof.
  assert (E : lower (match output with Some s => or_else s "" | None => "" end)
              = lower (diagnostic output)).
  { destruct output; simpl; [now rewrite or_else_empty | reflexivity]. }
  unfold classify_failure. rewrite E.
  rewrite <- needs_reconnect_markers.
  assert (G : contains (diagnostic output) "invalid_grant" ->
              needs_reconnect (lower (diagnostic output)) = true).
  { intros [pre [post H]]. apply needs_reconnect_markers.
    exists "invalid_grant". split; [simpl; tauto|].
    exists (lower pre), (lower post). rewrite H, !lower_app. reflexivity. }
  destruct (needs_reconnect (lower (diagnostic output))).
  - repeat split; try discriminate; try congruence; tauto.
  - split; [split; discriminate|]. split; [split; [discriminate | reflexivity]|].
    intros K. apply G in K. discriminate.
Qed.

(** A mixed-case rclone failure whose text carries the marker. *)
Lemma C1_failure_classification_witness :
  classify_failure (Some "couldn't fetch token: invalid_grant: Token has been expired")
    = NeedsReauth
  /\ classify_failure (Some "Failed to create OAuth client: EMPTY TOKEN found") = NeedsReauth
  /\ classify_failure (Some "directory not found") = Fatal.
Proof.
  split; [|split; reflexivity].
  apply (C1_failure_classification
           (Some "couldn't fetch token: invalid_grant: Token has been expired")).
  exists "couldn't fetch token: ", ": Token has been expired". reflexivity.
Defined.

(** ** C2, C3: the transfer command *)

Lemma has_char_app (c : ascii) (a b : string) :
  has_char c (a ++ String c b) = true.
Proof.
  induction a; simpl.
  - now rewrite Ascii.eqb_refl.
  - rewrite IHa. apply orb_true_r.
Qed.

Lemma target_not_flag (remote rest flag : string) :
  has_char ":" flag = false -> remote ++ ":" ++ rest <> flag.
Proof.
  intros H E. rewrite <- E in H.
  change (remote ++ ":" ++ rest) with (remote ++ String ":" rest) in H.
  rewrite has_char_app in H. discriminate.
Qed.

Lemma strftime_length (d : date) : String.length (strftime_Ymd d) = 10.
Proof. reflexivity. Qed.

(** The digits written for the date read back as its numbers: the text is
    the date in the form YYYY-MM-DD. *)
Lemma code_digit (n : nat) : code (ascii_of_nat (48 + n mod 10)) = 48 + n mod 10.
Proof.
  unfold code. apply nat_ascii_embedding.
  pose proof (Nat.mod_upper_bound n 10). lia.
Qed.

Lemma decimal_digit (n : nat) :
  index 0 (digit n) "0123456789" = Some (n mod 10).
Proof.
  unfold digit. pose proof (Nat.mod_upper_bound n 10 ltac:(lia)) as H.
  destruct (n mod 10) as [|[|[|[|[|[|[|[|[|[|k]]]]]]]]]]; try reflexivity. lia.
Qed.

Lemma four_digits (n : nat) :
  n < 10 * 1000 ->
  n = 1000 * ((n / 1000) mod 10) + 100 * ((n / 100) mod 10)
      + 10 * ((n / 10) mod 10) + n mod 10.
Proof.
  intros H.
  assert (n / 1000 < 10) by (apply Nat.Div0.div_lt_upper_bound; lia).
  rewrite (Nat.mod_small (n / 1000) 10) by assumption.
  pose proof (Nat.div_mod_eq n 10). pose proof (Nat.div_mod_eq (n / 10) 10).
  pose proof (Nat.div_mod_eq (n / 10 / 10) 10).
  rewrite !Nat.Div0.div_div in *. simpl (10 * 10) in *. simpl (100 * 10) in *.
  lia.
Qed.

Lemma two_digits (n : nat) : n < 100 -> n = 10 * ((n / 10) mod 10) + n mod 10.
Proof.
  intros H.
  assert (n / 10 < 10) by (apply Nat.Div0.div_lt_upper_bound; lia).
  pose proof (Nat.div_mod_eq n 10).
  rewrite (Nat.mod_small (n / 10) 10) by assumption. lia.
Qed.

Lemma numeral_pad4 (n : nat) : n < 10 * 1000 -> numeral 4 n (pad4 n).
Proof.
  intros H. split; [reflexivity|].
  unfold decimal_value, pad4.
  change (digit (n / 1000) ++ digit (n / 100) ++ digit (n / 10) ++ digit n)
    with (String (ascii_of_nat (48 + (n / 1000) mod 10))
            (String (ascii_of_nat (48 + (n / 100) mod 10))
               (String (ascii_of_nat (48 + (n / 10) mod 10)) (digit n)))).
  unfold digit at 1. cbn [decimal_value_from].
  fold (digit (n / 1000)). fold (digit (n / 100)). fold (digit (n / 10)). fold (digit n).
  rewrite !decimal_digit. f_equal. rewrite (four_digits n H) at 5. lia.
Qed.

Lemma numeral_pad2 (n : nat) : n < 100 -> numeral 2 n (pad2 n).
Proof.
  intros H. split; [reflexivity|].
  unfold decimal_value, pad2.
  change (digit (n / 10) ++ digit n)
    with (String (ascii_of_nat (48 + (n / 10) mod 10)) (digit n)).
  unfold digit at 1. cbn [decimal_value_from].
  fold (digit (n / 10)). fold (digit n).
  rewrite !decimal_digit. f_equal. rewrite (two_digits n H) at 3. lia.
Qed.

(** For a date with a four-digit year the text is the date in the form
    YYYY-MM-DD. *)
Lemma strftime_iso (d : date) : four_digit_date d -> iso_date d (strftime_Ymd d).
Proof.
  intros (Hy & Hm & Hd).
  exists (pad4 (year d)), (pad2 (month d)), (pad2 (day d)).
  split; [reflexivity|].
  split; [apply numeral_pad4; lia|]. split; apply numeral_pad2; lia.
Qed.

Lemma int_pad4 (n : nat) : n < 10 * 1000 -> int (pad4 n) = Some (N.of_nat n).
Proof.
  intros H. unfold int, pad4, digit.
  cbn [append int_acc String.length int_max_str_digits Nat.ltb Nat.leb].
  unfold is_decimal. rewrite !code_digit.
  repeat match goal with
         | |- context [(48 <=? 48 + ?k mod 10) && (48 + ?k mod 10 <=? 57)] =>
             replace ((48 <=? 48 + k mod 10) && (48 + k mod 10 <=? 57)) with true
               by (symmetry; apply andb_true_iff; split; apply Nat.leb_le;
                   pose proof (Nat.mod_upper_bound k 10); lia)
         end.
  f_equal. rewrite (four_digits n H) at 5. lia.
Qed.

Lemma int_pad2 (n : nat) : n < 100 -> int (pad2 n) = Some (N.of_nat n).
Proof.
  intros H. unfold int, pad2, digit.
  cbn [append int_acc String.length int_max_str_digits Nat.ltb Nat.leb].
  unfold is_decimal. rewrite !code_digit.
  repeat match goal with
         | |- context [(48 <=? 48 + ?k mod 10) && (48 + ?k mod 10 <=? 57)] =>
             replace ((48 <=? 48 + k mod 10) && (48 + k mod 10 <=? 57)) with true
               by (symmetry; apply andb_true_iff; split; apply Nat.leb_le;
                   pose proof (Nat.mod_upper_bound k 10); lia)
         end.
  f_equal. rewrite (two_digits n H) at 3. lia.
Qed.

Lemma strftime_shape (d : date) :
  strftime_Ymd d = pad4 (year d) ++ "-" ++ pad2 (month d) ++ "-" ++ pad2 (day d)
  /\ String.length (pad4 (year d)) = 4
  /\ String.length (pad2 (month d)) = 2
  /\ String.length (pad2 (day d)) = 2
  /\ (year d < 10 * 1000 -> int (pad4 (year d)) = Some (N.of_nat (year d)))
  /\ (month d < 100 -> int (pad2 (month d)) = Some (N.of_nat (month d)))
  /\ (day d < 100 -> int (pad2 (day d)) = Some (N.of_nat (day d))).
Proof.
  repeat split; auto using int_pad4, int_pad2.
Qed.

(** The base name of the versions as [main] derives it from the answer to
    its prompt: the typed name without surrounding blanks and slashes, and
    the default name for a bare ENTER. *)
Lemma main_versions_base (w : World) (l : string) (rest : list string) :
  ask_yes_no true (stdin w) = (Ok true, l :: rest) ->
  is_help (lower (strip l)) = false ->
  main_versions w
  = (Ok (true, strip_slash (or_else (strip l) "Backup0RG_Versiones")), with_stdin w rest).
Proof.
  intros Hask Hh. unfold main_versions, bind, reading, input. rewrite Hask.
  cbn [stdin with_stdin]. rewrite Hh. reflexivity.
Qed.

(** C2. With versioning enabled and base name [V] the command carries, right
    after the fixed words, the flag [--backup-dir] followed by exactly
    [<remote>:V/<date>], and this is the only such flag; the date is the
    clock's date written as YYYY-MM-DD: four digits that read as the year, a
    dash, two digits that read as the month, a dash, two digits that read as
    the day (for a year of four digits, as the clock gives).  With versioning
    disabled no flag is [--backup-dir].  On 2024-01-02 with base "V" the
    target is [<remote>:V/2024-01-02]. *)
Theorem C2_backup_dir_target
    (rclone : string) (src : Path) (remote dest V : string) (today : date)
    (dry_run show_progress : bool) :
  (let cmd := build_cmd rclone src remote dest true V today dry_run show_progress in
   nth_error cmd 5 = Some "--backup-dir"
   /\ nth_error cmd 6 = Some (remote ++ ":" ++ V ++ "/" ++ strftime_Ymd today)
   /\ length (filter (String.eqb "--backup-dir") (flags_of cmd)) = 1
   /\ String.length (strftime_Ymd today) = 10
   /\ (four_digit_date today ->
       exists date_text,
         nth_error cmd 6 = Some (remote ++ ":" ++ V ++ "/" ++ date_text)
         /\ iso_date today date_text))
  /\ ~ In "--backup-dir"
         (flags_of (build_cmd rclone src remote dest false V today dry_run show_progress))
  /\ nth_error (build_cmd rclone src remote dest true "V" (mkDate 2024 1 2)
                  dry_run show_progress) 6
     = Some (remote ++ ":V/2024-01-02").
Proof.
  assert (T : nth_error (build_cmd rclone src remote dest true V today dry_run show_progress) 6
              = Some (remote ++ ":" ++ V ++ "/" ++ strftime_Ymd today))
    by (destruct dry_run, show_progress; reflexivity).
  split; [|split].
  - cbv zeta. split; [|split; [|split; [|split]]].
    + destruct dry_run, show_progress; reflexivity.
    + exact T.
    + assert (N : ("--backup-dir" =? remote ++ ":" ++ V ++ "/" ++ strftime_Ymd today)%string
                  = false).
      { apply String.eqb_neq. intros E. symmetry in E. revert E.
        apply target_not_flag. reflexivity. }
      destruct dry_run, show_progress; unfold build_cmd, flags_of;
        cbn [app skipn filter]; rewrite N; reflexivity.
    + reflexivity.
    + intros Hd. exists (strftime_Ymd today). split; [exact T|]. now apply strftime_iso.
  - destruct dry_run, show_progress; unfold build_cmd, flags_of; simpl; intuition discriminate.
  - destruct dry_run, show_progress; reflexivity.
Qed.

(** On 2031-12-09 the target ends in a text that is that date in the form
    YYYY-MM-DD, namely 2031-12-09. *)
Lemma C2_backup_dir_target_witness :
  exists date_text,
    nth_error (build_cmd "rclone" Sample.documents "gdrive" "Backup0RG" true "V"
                 (mkDate 2031 12 9) true true) 6
    = Some ("gdrive:V/" ++ date_text)
    /\ iso_date (mkDate 2031 12 9) date_text
    /\ date_text = "2031-12-09".
Proof.
  destruct (C2_backup_dir_target "rclone" Sample.documents "gdrive" "Backup0RG" "V"
              (mkDate 2031 12 9) true true) as ((_ & _ & _ & _ & H) & _).
  destruct H as (t & Ht & Hiso); [unfold four_digit_date; simpl; lia|].
  exists t. split; [exact Ht|]. split; [exact Hiso|].
  vm_compute in Ht. now inversion Ht.
Defined.

(** C3. Whatever the parameters, the command starts with the tool, its verb is
    [copy] (so never [sync]), its fifth word is [--fast-list], and its flags
    contain [--dry-run] exactly when the dry run was chosen. *)
Theorem C3_copy_mode_command
    (rclone : string) (src : Path) (remote dest V : string) (today : date)
    (use_versions dry_run show_progress : bool) :
  let cmd := build_cmd rclone src remote dest use_versions V today dry_run show_progress in
  nth_error cmd 0 = Some rclone
  /\ nth_error cmd 1 = Some "copy"
  /\ nth_error cmd 1 <> Some "sync"
  /\ nth_error cmd 2 = Some (to_string src)
  /\ nth_error cmd 3 = Some (remote ++ ":" ++ dest)
  /\ nth_error cmd 4 = Some "--fast-list"
  /\ (In "--dry-run" (flags_of cmd) <-> dry_run = true).
Proof.
  cbv zeta. repeat split.
  1-6: destruct use_versions, dry_run, show_progress; simpl; congruence.
  - assert (N : remote ++ ":" ++ V ++ "/" ++ strftime_Ymd today <> "--dry-run")
      by (apply target_not_flag; reflexivity).
    destruct use_versions, dry_run, show_progress; unfold build_cmd, flags_of; simpl;
      intros H; try reflexivity; intuition (try discriminate; congruence).
  - intros ->. destruct use_versions, show_progress; unfold build_cmd, flags_of; simpl; tauto.
Qed.

(** ** C5: the listing of the subfolders *)

Lemma string_compare_trans (x y z : string) :
  String.compare x y <> Gt -> String.compare y z <> Gt -> String.compare x z <> Gt.
Proof.
  revert y z; induction x as [|a x IH]; intros [|b y] [|c z]; simpl; try congruence.
  unfold Ascii.compare.
  destruct (N.compare_spec (N_of_ascii a) (N_of_ascii b)) as [E1|L1|G1];
    destruct (N.compare_spec (N_of_ascii b) (N_of_ascii c)) as [E2|L2|G2];
    destruct (N.compare_spec (N_of_ascii a) (N_of_ascii c)) as [E3|L3|G3];
    try congruence; try (exfalso; lia); auto.
  apply IH.
Qed.

Lemma string_leb_trans (x y z : string) :
  String.leb x y = true -> String.leb y z = true -> String.leb x z = true.
Proof.
  unfold String.leb. intros H1 H2.
  pose proof (string_compare_trans x y z) as T.
  destruct (String.compare x y), (String.compare y z), (String.compare x z);
    try reflexivity; try discriminate; exfalso; apply T; congruence.
Qed.

Section SortedByFacts.
Context {A : Type} (key : A -> string).

Lemma insert_by_perm (x : A) (l : list A) :
  Permutation (insert_by key x l) (x :: l).
Proof.
  induction l as [|y l IH]; simpl; [reflexivity|].
  destruct (String.leb (key x) (key y)); [reflexivity|].
  rewrite IH. apply perm_swap.
Qed.

Lemma sorted_by_perm (l : list A) : Permutation (sorted_by key l) l.
Proof.
  induction l as [|x l IH]; simpl; [reflexivity|].
  rewrite insert_by_perm. now apply perm_skip.
Qed.

Lemma insert_by_sorted (x : A) (l : list A) :
  StronglySorted (key_le key) l -> StronglySorted (key_le key) (insert_by key x l).
Proof.
  induction 1 as [|y l Hs IH Hall]; simpl.
  - constructor; constructor.
  - destruct (String.leb (key x) (key y)) eqn:E.
    + constructor; [now constructor|].
      constructor; [exact E|].
      eapply Forall_impl; [|exact Hall].
      intros b Hb. unfold key_le in *. eapply string_leb_trans; eauto.
    + constructor; [exact IH|].
      eapply Permutation_Forall; [symmetry; apply insert_by_perm|].
      constructor; [|exact Hall].
      unfold key_le. destruct (String.leb_total (key x) (key y)); congruence.
Qed.

Lemma sorted_by_sorted (l : list A) : StronglySorted (key_le key) (sorted_by key l).
Proof.
  induction l; simpl; [constructor | now apply insert_by_sorted].
Qed.
End SortedByFacts.

Lemma name_child (p : Path) (n : string) : name (child p n) = n.
Proof. unfold name, child; simpl. apply last_last. Qed.

Lemma parent_child (p : Path) (n : string) : parent (child p n) = p.
Proof. destruct p; unfold parent, child; simpl. now rewrite removelast_last. Qed.

Lemma select_dirs_ok (f : FileSystem) (path : Path) (names : list string) :
  (forall n, In n names -> is_dir f (child path n) <> None) ->
  select_dirs f (map (child path) names)
  = Some (map (child path) (filter (listed f path) names)).
Proof.
  induction names as [|n names IH]; intros H; simpl; [reflexivity|].
  unfold listed at 1, is_directory, visible_dir.
  rewrite name_child.
  destruct (is_dir f (child path n)) as [b|] eqn:E.
  - rewrite IH by (intros; apply H; now right).
    destruct b; simpl; [|reflexivity].
    now destruct (startswith n ".").
  - exfalso. apply (H n); [now left | exact E].
Qed.

Lemma select_dirs_error (f : FileSystem) (entries : list Path) (p : Path) :
  In p entries -> is_dir f p = None -> select_dirs f entries = None.
Proof.
  induction entries as [|q entries IH]; simpl; [tauto|].
  intros [->|Hin] E.
  - now rewrite E.
  - destruct (is_dir f q); [|reflexivity]. now rewrite IH.
Qed.

(** The sort key is the name with its capitals replaced by small letters,
    and nothing else is. *)
Lemma is_upper_capital (c : ascii) : is_upper c = true <-> capital c.
Proof.
  unfold is_upper, capital.
  rewrite orb_true_iff, !andb_true_iff, negb_true_iff, !Nat.leb_le, Nat.eqb_neq.
  tauto.
Qed.

Lemma code_bound (c : ascii) : code c < 256.
Proof. apply nat_ascii_bounded. Qed.

Lemma lower_char_pair (c : ascii) :
  case_pair c (lower_char c) /\ ~ capital (lower_char c).
Proof.
  unfold lower_char. destruct (is_upper c) eqn:E.
  - apply is_upper_capital in E.
    assert (B : code (ascii_of_nat (code c + 32)) = code c + 32).
    { unfold code at 1. apply nat_ascii_embedding. unfold capital in E. lia. }
    split.
    + right. left. split; [exact E | exact B].
    + unfold capital in *. rewrite B. lia.
  - split; [now left|]. intros H. apply is_upper_capital in H. congruence.
Qed.

Lemma case_key_lower (n : string) : case_key n (lower n).
Proof.
  unfold case_key. induction n as [|c n [IH1 IH2]]; simpl; [tauto|].
  destruct (lower_char_pair c). tauto.
Qed.

Lemma case_key_unique (n k : string) : case_key n k -> k = lower n.
Proof.
  unfold case_key. revert k. induction n as [|a n IH]; intros [|b k]; simpl;
    try tauto.
  intros [[Hp Hs] [Hb Hk]]. f_equal; [|apply IH; tauto].
  unfold lower_char. destruct Hp as [->|[[Ha Hc]|[Hcap _]]].
  - destruct (is_upper b) eqn:E; [apply is_upper_capital in E; contradiction | reflexivity].
  - apply is_upper_capital in Ha. rewrite Ha, <- Hc. unfold code.
    symmetry. apply ascii_nat_embedding.
  - contradiction.
Qed.

Lemma ci_le_lower (a b : string) :
  ci_le a b <-> String.leb (lower a) (lower b) = true.
Proof.
  split.
  - intros (ka & kb & Ha & Hb & H).
    now rewrite <- (case_key_unique a ka Ha), <- (case_key_unique b kb Hb).
  - intros H. exists (lower a), (lower b). auto using case_key_lower.
Qed.

Lemma sorted_ignoring_case (l : list Path) :
  sorted_by_name l -> StronglySorted (fun p q => ci_le (name p) (name q)) l.
Proof.
  unfold sorted_by_name. induction 1 as [|p l Hs IH Hall]; constructor; [exact IH|].
  eapply Forall_impl; [|exact Hall].
  intros q Hq. apply ci_le_lower. exact Hq.
Qed.

(** C5. When the directory can be read, its listing is a rearrangement of
    exactly those entries that are directories and whose name has no leading
    dot.  The listing is sorted by name without regard to case: of two
    neighbours, and of any two entries, the earlier one compares no greater
    than the later one once the capitals of both names (A-Z and the accented
    capitals) are replaced by their small letters.  When reading the
    directory or testing one of its entries fails, the listing is empty. *)
Theorem C5_list_subfolders (f : FileSystem) (path : Path) :
  (forall names,
      iterdir f path = Some names ->
      (forall n, In n names -> is_dir f (child path n) <> None) ->
      Permutation (list_subfolders f path)
                  (map (child path) (filter (listed f path) names))
      /\ (forall p, In p (list_subfolders f path) ->
                    is_dir f p = Some true /\ startswith (name p) "." = false))
  /\ sorted_by_name (list_subfolders f path)
  /\ StronglySorted (fun p q => ci_le (name p) (name q)) (list_subfolders f path)
  /\ (iterdir f path = None -> list_subfolders f path = [])
  /\ (forall names n,
         iterdir f path = Some names -> In n names ->
         is_dir f (child path n) = None -> list_subfolders f path = []).
Proof.
  assert (Sorted : sorted_by_name (list_subfolders f path)).
  { unfold list_subfolders. destruct (iterdir f path); [|constructor].
    destruct (select_dirs f _); [apply sorted_by_sorted | constructor]. }
  split; [|split; [exact Sorted|split; [now apply sorted_ignoring_case|split]]].
  - intros names Hit Hdir. unfold list_subfolders.
    rewrite Hit, (select_dirs_ok _ _ _ Hdir). split; [apply sorted_by_perm|].
    intros p Hp. eapply Permutation_in in Hp; [|apply sorted_by_perm].
    apply in_map_iff in Hp. destruct Hp as [n [<- Hn]].
    apply filter_In in Hn. destruct Hn as [_ Hn]. unfold listed, is_directory in Hn.
    rewrite name_child. apply andb_true_iff in Hn. destruct Hn as [Hd Hn].
    split.
    + destruct (is_dir f (child path n)) as [[|]|]; congruence.
    + now destruct (startswith n ".").
  - unfold list_subfolders. now intros ->.
  - intros names n Hit Hin E. unfold list_subfolders. rewrite Hit.
    now rewrite (select_dirs_error f _ (child path n) (in_map _ _ _ Hin) E).
Qed.

(** The listing of the sample documents folder: the hidden [.git] and the
    file [todo.txt] are left out, the rest is sorted without regard to case.
    In the folder of mixed names the small and the capital letter of a name
    stand together, in the order of the directory, and the accented capital
    of Angel sorts as its small letter, after abaco. *)
Lemma C5_list_subfolders_witness :
  Permutation (list_subfolders Sample.tree Sample.documents)
              (map (child Sample.documents) ["zeta"; "Alpha"; "beta"])
  /\ list_subfolders Sample.tree Sample.documents
     = map (child Sample.documents) ["Alpha"; "beta"; "zeta"]
  /\ list_subfolders Sample.mixed_case Sample.home_u
     = map (child Sample.home_u) ["a"; "A"; "b"; "B"; Sample.abaco; Sample.Angel]
  /\ StronglySorted (fun p q => ci_le (name p) (name q))
       (map (child Sample.home_u) ["a"; "A"; "b"; "B"; Sample.abaco; Sample.Angel]).
Proof.
  split; [|split; [reflexivity|split; [reflexivity|]]].
  - apply (C5_list_subfolders Sample.tree Sample.documents)
      with (names := ["zeta"; ".git"; "Alpha"; "todo.txt"; "beta"]).
    + reflexivity.
    + intros n _. discriminate.
  - change (map (child Sample.home_u) ["a"; "A"; "b"; "B"; Sample.abaco; Sample.Angel])
      with (list_subfolders Sample.mixed_case Sample.home_u).
    apply (C5_list_subfolders Sample.mixed_case Sample.home_u).
Defined.

(** ** C6: ascend, then descend into the folder just left *)

Lemma parts_eqb_eq (a b : list string) : parts_eqb a b = true <-> a = b.
Proof.
  revert b; induction a as [|x a IH]; intros [|y b]; simpl;
    try (split; [discriminate | discriminate]); [tauto|].
  rewrite andb_true_iff, String.eqb_eq, IH. split.
  - now intros [-> ->].
  - intros H; inversion H; auto.
Qed.

Lemma path_eqb_eq (p q : Path) : PyPath.eqb p q = true <-> p = q.
Proof.
  destruct p as [a ps], q as [b qs]. unfold PyPath.eqb; simpl.
  rewrite andb_true_iff, String.eqb_eq, parts_eqb_eq. split.
  - now intros [-> ->].
  - intros H; inversion H; auto.
Qed.

Lemma named_has_parts (p : Path) : name p <> "" -> parts p <> [].
Proof. unfold name. destruct (parts p); simpl; congruence. Qed.

Lemma parent_differs (p : Path) : parts p <> [] -> PyPath.eqb (parent p) p = false.
Proof.
  intros H. destruct (PyPath.eqb (parent p) p) eqn:E; [|reflexivity].
  apply path_eqb_eq in E. exfalso.
  assert (L : length (parts (parent p)) = length (parts p)) by now rewrite E.
  unfold parent in L; simpl in L.
  rewrite (app_removelast_last "" H) in L at 2.
  rewrite length_app in L. simpl in L. lia.
Qed.

Lemma child_parent_name (p : Path) : parts p <> [] -> child (parent p) (name p) = p.
Proof.
  intros H. destruct p as [a ps]. unfold child, parent, name; simpl in *.
  now rewrite <- (app_removelast_last "" H).
Qed.

Lemma select_dirs_children (f : FileSystem) (dir : Path) (names : list string) (ds : list Path) :
  select_dirs f (map (child dir) names) = Some ds ->
  forall q, In q ds -> exists n, q = child dir n.
Proof.
  revert ds; induction names as [|n names IH]; simpl; intros ds H q Hq.
  - inversion H; subst. contradiction.
  - destruct (is_dir f (child dir n)); [|discriminate].
    destruct (select_dirs f (map (child dir) names)) as [ds'|]; [|discriminate].
    inversion H; subst; clear H.
    destruct (visible_dir b (child dir n)).
    + destruct Hq as [<-|Hq]; eauto.
    + eauto.
Qed.

(** Every listed subfolder is the listed directory extended by one name. *)
Lemma list_subfolders_children (f : FileSystem) (dir q : Path) :
  In q (list_subfolders f dir) -> q = child dir (name q).
Proof.
  unfold list_subfolders.
  destruct (iterdir f dir) as [names|]; [|contradiction].
  destruct (select_dirs f (map (child dir) names)) as [ds|] eqn:E; [|contradiction].
  intros Hq. eapply Permutation_in in Hq; [|apply sorted_by_perm].
  destruct (select_dirs_children _ _ _ _ E q Hq) as [n ->].
  now rewrite name_child.
Qed.

Lemma digit_not_command (c : ascii) (s : string) :
  is_digit c = true ->
  is_help (String c s) = false
  /\ elem (String c s) ["q"; "quit"] = false
  /\ String.eqb (String c s) "u" = false
  /\ String.eqb (String c s) "b" = false.
Proof.
  destruct c as [[] [] [] [] [] [] [] []]; intros H; try discriminate H;
    repeat split; reflexivity.
Qed.

Lemma browser_step_descend (f : FileSystem) (dir : Path) (choice : string) (q : Path) :
  shown_at f dir choice q -> browser_step f dir choice = NavMove q.
Proof.
  intros (Hd & k & Hk & H1 & Hn). unfold browser_step.
  assert (Hc : exists c s, choice = String c s /\ is_digit c = true).
  { destruct choice as [|c s]; [discriminate|]. exists c, s. split; [reflexivity|].
    simpl in Hd. now apply andb_true_iff in Hd. }
  destruct Hc as (c & s & E & Hc).
  destruct (digit_not_command c s Hc) as (K1 & K2 & K3 & K4).
  rewrite <- E in K1, K2, K3, K4. rewrite K1, K2, K3, K4, Hd, Hk.
  assert (R : ((1 <=? k)%N
               && (k <=? N.of_nat (length (list_subfolders f dir)))%N) = true).
  { apply andb_true_iff. split; [now apply N.leb_le|].
    apply N.leb_le.
    assert (N.to_nat (k - 1) < length (list_subfolders f dir))
      by (apply nth_error_Some; congruence).
    lia. }
  now rewrite R, Hn.
Qed.

(** C6. From a directory that has a name, the ascend command moves to the
    parent; if the parent's listing then shows, under some number, a subfolder
    with the name of the directory just left, choosing that number (typed as
    a numeral that [int] converts) leads back to exactly that directory, and
    the browser goes on as if the two commands had not been typed.  The file
    system is the same for both steps. *)
Theorem C6_ascend_descend_round_trip
    (f : FileSystem) (current q : Path) (choice : string) :
  name current <> "" ->
  shown_at f (parent current) choice q ->
  name q = name current ->
  browser_step f current "u" = NavMove (parent current)
  /\ browser_step f (parent current) choice = NavMove current
  /\ forall l1 l2 rest,
       lower (strip l1) = "u" -> lower (strip l2) = choice ->
       folder_browser f (l1 :: l2 :: rest) current = folder_browser f rest current.
Proof.
  intros Hname Hshown Hq.
  pose proof (named_has_parts _ Hname) as Hparts.
  assert (Eq : q = current).
  { destruct Hshown as (_ & k & _ & _ & Hn). apply nth_error_In in Hn.
    rewrite (list_subfolders_children _ _ _ Hn), Hq.
    now apply child_parent_name. }
  subst q.
  assert (Up : browser_step f current "u" = NavMove (parent current)).
  { unfold browser_step. cbn [is_help elem String.eqb Ascii.eqb Bool.eqb orb andb].
    now rewrite (parent_differs _ Hparts). }
  pose proof (browser_step_descend _ _ _ _ Hshown) as Down.
  repeat split; [exact Up | exact Down |].
  intros l1 l2 rest E1 E2. cbn [folder_browser].
  now rewrite E1, Up, E2, Down.
Qed.

(** From [Documents/beta]: up to [Documents], whose listing shows [beta]
    under the number 2, and back. *)
Lemma C6_ascend_descend_round_trip_witness :
  browser_step Sample.tree Sample.beta "u" = NavMove Sample.documents
  /\ browser_step Sample.tree Sample.documents "2" = NavMove Sample.beta
  /\ forall l1 l2 rest,
       lower (strip l1) = "u" -> lower (strip l2) = "2" ->
       folder_browser Sample.tree (l1 :: l2 :: rest) Sample.beta
       = folder_browser Sample.tree rest Sample.beta.
Proof.
  apply (C6_ascend_descend_round_trip Sample.tree Sample.beta Sample.beta "2").
  - discriminate.
  - split; [reflexivity|]. exists 2%N. split; [reflexivity|].
    split; [discriminate | reflexivity].
  - reflexivity.
Defined.

(** ** C4: the reauthorization branch *)

Section Reauth.
Variables (w : World) (rclone remote : string).
Variables (rc1 : Z) (out1 : option string).

Let lsd := lsd_cmd rclone remote.
Let reconnect := reconnect_cmd rclone remote.
Let history := executed w.

(** The first listing fails and its text asks for a reauthorization. *)
Hypothesis first_fails : tool w history lsd = Exited rc1 out1.
Hypothesis first_nonzero : rc1 <> 0%Z.
Hypothesis first_reauth : classify_failure out1 = NeedsReauth.

Lemma reauth_declined (rest : list string) :
  ask_yes_no true (stdin w) = (Ok false, rest) ->
  remote_ok_or_fix rclone remote w
  = (Raise (SystemExit 2), with_stdin (with_executed w (history ++ [lsd])) rest).
Proof.
  intros Hask. unfold remote_ok_or_fix, check_output.
  fold lsd. fold history. rewrite first_fails.
  destruct (Z.eqb_spec rc1 0) as [E|_]; [contradiction|].
  rewrite first_reauth. unfold bind, reading. simpl. rewrite Hask. reflexivity.
Qed.

Lemma reauth_reconnect_fails (rest : list string) (rc : Z) (o : option string) :
  ask_yes_no true (stdin w) = (Ok true, rest) ->
  tool w (history ++ [lsd]) reconnect = Exited rc o ->
  rc <> 0%Z ->
  remote_ok_or_fix rclone remote w
  = (Raise (SystemExit rc),
     with_stdin (with_executed w (history ++ [lsd; reconnect])) rest).
Proof.
  intros Hask Hrec Hrc. unfold remote_ok_or_fix, check_output.
  fold lsd. fold history. rewrite first_fails.
  destruct (Z.eqb_spec rc1 0) as [E|_]; [contradiction|].
  rewrite first_reauth. unfold bind, reading, call. simpl. rewrite Hask. simpl.
  fold reconnect. rewrite Hrec.
  destruct (Z.eqb_spec rc 0) as [E|_]; [contradiction|]. simpl.
  unfold raise, with_executed, with_stdin. simpl.
  now rewrite <- app_assoc.
Qed.

Lemma reauth_second_check (rest : list string) (o : option string)
      (rc2 : Z) (out2 : option string) :
  ask_yes_no true (stdin w) = (Ok true, rest) ->
  tool w (history ++ [lsd]) reconnect = Exited 0 o ->
  tool w (history ++ [lsd; reconnect]) lsd = Exited rc2 out2 ->
  let w3 := with_stdin (with_executed w (history ++ [lsd; reconnect; lsd])) rest in
  (rc2 <> 0%Z ->
   remote_ok_or_fix rclone remote w = (Raise (CalledProcessError rc2 out2), w3))
  /\ (rc2 = 0%Z ->
      forall x rest', rest = x :: rest' ->
      remote_ok_or_fix rclone remote w = (Ok tt, with_stdin w3 rest')).
Proof.
  intros Hask Hrec Hsnd w3.
  assert (E : remote_ok_or_fix rclone remote w
              = (if Z.eqb rc2 0
                 then reading pause ;;; ret tt
                 else raise (CalledProcessError rc2 out2)) w3).
  { unfold remote_ok_or_fix, check_output.
    fold lsd. fold history. rewrite first_fails.
    destruct (Z.eqb_spec rc1 0) as [E|_]; [contradiction|].
    rewrite first_reauth. unfold bind, reading, call. simpl. rewrite Hask. simpl.
    fold reconnect. rewrite Hrec. simpl. fold lsd.
    rewrite <- app_assoc. simpl. rewrite Hsnd.
    unfold w3, with_executed, with_stdin; simpl. rewrite <- !app_assoc. simpl.
    destruct (Z.eqb rc2 0); reflexivity. }
  rewrite E. split.
  - intros Hrc. destruct (Z.eqb_spec rc2 0); [contradiction | reflexivity].
  - intros -> x rest' ->. reflexivity.
Qed.
End Reauth.

(** C4. In the NeedsReauth branch: a declined prompt ends the run with
    [SystemExit(2)], the status 2; an accepted prompt followed by a
    reauthorization whose return code [rc] is not 0 ends it with
    [SystemExit(rc)], so that the status of the run is that same code when
    the reauthorization exited with a code from 1 to 255 (for the negative
    return code of a reauthorization killed by a signal the status is the
    low eight bits of it, which are not 0 either); after a successful
    reauthorization the listing is run once more and only once, and when
    this second listing fails its [CalledProcessError] leaves the function
    unhandled, while a success lets the function return. *)
Theorem C4_reauthorization_branch
    (w : World) (rclone remote : string) (rc1 : Z) (out1 : option string) :
  let lsd := lsd_cmd rclone remote in
  let reconnect := reconnect_cmd rclone remote in
  tool w (executed w) lsd = Exited rc1 out1 ->
  rc1 <> 0%Z ->
  classify_failure out1 = NeedsReauth ->
  (forall rest,
      ask_yes_no true (stdin w) = (Ok false, rest) ->
      remote_ok_or_fix rclone remote w
      = (Raise (SystemExit 2), with_stdin (with_executed w (executed w ++ [lsd])) rest)
      /\ exit_status (Raise (SystemExit 2)) <> 0%Z)
  /\ (forall rest rc o,
        ask_yes_no true (stdin w) = (Ok true, rest) ->
        tool w (executed w ++ [lsd]) reconnect = Exited rc o ->
        rc <> 0%Z ->
        remote_ok_or_fix rclone remote w
        = (Raise (SystemExit rc),
           with_stdin (with_executed w (executed w ++ [lsd; reconnect])) rest)
        /\ exit_status (Raise (SystemExit rc)) = (rc mod 256)%Z
        /\ ((0 < rc < 256)%Z ->
            exit_status (Raise (SystemExit rc)) = rc
            /\ exit_status (Raise (SystemExit rc)) <> 0%Z)
        /\ ((-256 < rc < 0)%Z ->
            exit_status (Raise (SystemExit rc)) = (256 + rc)%Z
            /\ exit_status (Raise (SystemExit rc)) <> 0%Z))
  /\ (forall rest o rc2 out2,
        ask_yes_no true (stdin w) = (Ok true, rest) ->
        tool w (executed w ++ [lsd]) reconnect = Exited 0 o ->
        tool w (executed w ++ [lsd; reconnect]) lsd = Exited rc2 out2 ->
        let w3 := with_stdin (with_executed w (executed w ++ [lsd; reconnect; lsd])) rest in
        (rc2 <> 0%Z ->
         remote_ok_or_fix rclone remote w = (Raise (CalledProcessError rc2 out2), w3))
        /\ (rc2 = 0%Z ->
            forall x rest', rest = x :: rest' ->
            remote_ok_or_fix rclone remote w = (Ok tt, with_stdin w3 rest'))).
Proof.
  intros lsd reconnect H1 H2 H3. split; [|split].
  - intros rest Hask. split; [|discriminate].
    now apply (reauth_declined w rclone remote rc1 out1).
  - intros rest rc o Hask Hrec Hrc.
    split; [now apply (reauth_reconnect_fails w rclone remote rc1 out1 H1 H2 H3 rest rc o)|].
    split; [reflexivity|]. cbn [exit_status]. split; intros Hr.
    + rewrite Z.mod_small by lia. lia.
    + assert (E : (rc mod 256 = 256 + rc)%Z).
      { symmetry. apply (Z.mod_unique rc 256 (-1) (256 + rc)); lia. }
      rewrite E. lia.
  - intros rest o rc2 out2 Hask Hrec Hsnd.
    now apply (reauth_second_check w rclone remote rc1 out1 H1 H2 H3 rest o rc2 out2).
Qed.

(** A reauthorization that ends well and repairs nothing: the second failure
    is raised, after exactly three processes.  A reauthorization that exits
    with the code 5 ends the run with the status 5. *)
Lemma C4_reauthorization_branch_witness :
  let w := Sample.world Sample.stubborn_tool ["s"; "q"] in
  let lsd := lsd_cmd "/usr/bin/rclone" "gdrive" in
  remote_ok_or_fix "/usr/bin/rclone" "gdrive" w
  = (Raise (CalledProcessError 1 (Some "Failed to create OAuth client: empty token found")),
     with_stdin
       (with_executed w [lsd; reconnect_cmd "/usr/bin/rclone" "gdrive"; lsd]) ["q"])
  /\ fst (remote_ok_or_fix "/usr/bin/rclone" "gdrive"
            (Sample.world Sample.refusing_tool ["s"; "q"]))
     = Raise (SystemExit 5)
  /\ exit_status (Raise (SystemExit 5)) = 5%Z.
Proof.
  intros w lsd. split; [|split].
  - destruct (C4_reauthorization_branch w "/usr/bin/rclone" "gdrive" 1
                (Some "Failed to create OAuth client: empty token found"))
      as (_ & _ & H); [reflexivity | discriminate | reflexivity |].
    apply (H ["q"] None 1%Z (Some "Failed to create OAuth client: empty token found"));
      [reflexivity | reflexivity | reflexivity | discriminate].
  - destruct (C4_reauthorization_branch (Sample.world Sample.refusing_tool ["s"; "q"])
                "/usr/bin/rclone" "gdrive" 1
                (Some "Failed to create OAuth client: empty token found"))
      as (_ & H & _); [reflexivity | discriminate | reflexivity |].
    destruct (H ["q"] 5%Z None) as (E & _); [reflexivity | reflexivity | discriminate |].
    now rewrite E.
  - destruct (C4_reauthorization_branch (Sample.world Sample.refusing_tool ["s"; "q"])
                "/usr/bin/rclone" "gdrive" 1
                (Some "Failed to create OAuth client: empty token found"))
      as (_ & H & _); [reflexivity | discriminate | reflexivity |].
    destruct (H ["q"] 5%Z None) as (_ & _ & H5 & _);
      [reflexivity | reflexivity | discriminate |].
    apply H5. lia.
Defined.

(** The two branches around the reauthorization: a healthy remote lets the
    function return after one listing; a Fatal failure ends the run with
    [SystemExit(2)] once the diagnostic has been shown and acknowledged. *)
Lemma remote_ok_or_fix_other_branches
    (w : World) (rclone remote : string) :
  let lsd := lsd_cmd rclone remote in
  let w1 := with_executed w (executed w ++ [lsd]) in
  (classify (tool w (executed w) lsd) = Some HealthOK ->
   remote_ok_or_fix rclone remote w = (Ok tt, w1))
  /\ (classify (tool w (executed w) lsd) = Some Fatal ->
      forall x rest, stdin w = x :: rest ->
      remote_ok_or_fix rclone remote w = (Raise (SystemExit 2), with_stdin w1 rest)).
Proof.
  intros lsd w1. unfold remote_ok_or_fix, check_output. fold lsd.
  destruct (tool w (executed w) lsd) as [rc out|]; simpl; [|split; discriminate].
  destruct (Z.eqb rc 0).
  - split; [reflexivity|discriminate].
  - split; [unfold classify_failure; destruct (needs_reconnect _); discriminate|].
    intros H x rest Hin. inversion H as [K]. rewrite K.
    unfold bind, reading, pause, input. simpl. rewrite Hin. reflexivity.
Qed.

(** ** C7: the tokens the prompts recognize *)

Lemma help_line_cases (l : string) :
  is_help (lower (strip l)) = true ->
  lower (strip l) = "h" \/ lower (strip l) = "help" \/ lower (strip l) = "?".
Proof. unfold is_help. rewrite elem_In. simpl. intros [H|[H|[H|[]]]]; auto. Qed.

Lemma quit_line_cases (l : string) :
  elem (lower (strip l)) ["q"; "quit"] = true ->
  lower (strip l) = "q" \/ lower (strip l) = "quit".
Proof. rewrite elem_In. simpl. intros [H|[H|[]]]; auto. Qed.

Lemma default_remote_ok (remotes : list string) :
  remotes <> [] -> exists d, default_remote remotes = Ok d.
Proof.
  intros H. unfold default_remote. destruct (elem "gdrive" remotes); [eauto|].
  destruct remotes; [contradiction | eauto].
Qed.

(** After a help request the help is shown, its [pause] takes one more line,
    and the prompt loop starts again in the same state. *)
Lemma help_is_recognized (l x : string) (rest : list string) :
  is_help (lower (strip l)) = true ->
  (forall d, ask_yes_no d (l :: x :: rest) = ask_yes_no d rest)
  /\ (forall remotes, pick_remote remotes (l :: x :: rest) = pick_remote remotes rest)
  /\ (forall f current,
         folder_browser f (l :: x :: rest) current = folder_browser f rest current)
  /\ (forall f e docs desk,
         choose_loop f e docs desk (l :: x :: rest) = choose_loop f e docs desk rest).
Proof.
  intros H. apply help_line_cases in H.
  repeat split; intros;
    [ cbn [ask_yes_no] | cbn [pick_remote] | cbn [folder_browser]; unfold browser_step
    | cbn [choose_loop] ];
    destruct H as [E|[E|E]]; rewrite E; reflexivity.
Qed.

(** The menus and the browser end on [q] and on [quit]. *)
Lemma quit_is_recognized (l : string) (rest : list string) :
  elem (lower (strip l)) ["q"; "quit"] = true ->
  (forall remotes, pick_remote remotes (l :: rest) = (Ok "", rest))
  /\ (forall f current, folder_browser f (l :: rest) current = (Ok None, rest))
  /\ (forall f e docs desk, choose_loop f e docs desk (l :: rest) = (Ok None, rest)).
Proof.
  intros H. apply quit_line_cases in H.
  repeat split; intros;
    [ cbn [pick_remote] | cbn [folder_browser]; unfold browser_step | cbn [choose_loop] ];
    destruct H as [E|E]; rewrite E; reflexivity.
Qed.

(** The two confirmations of [main] return on [q] and on [quit]: no remote is
    selected, no command is run. *)
Lemma quit_at_confirmations (w : World) (l : string) (rest : list string) :
  elem (lower (strip l)) ["q"; "quit"] = true ->
  stdin w = l :: rest ->
  (forall remotes, remotes <> [] ->
      main_select_remote remotes w = (Ok None, with_stdin w rest))
  /\ (forall cmd, main_confirm cmd w = (Ok tt, with_stdin w rest)).
Proof.
  intros H Hin. apply quit_line_cases in H. split.
  - intros remotes Hne. destruct (default_remote_ok remotes Hne) as [d Hd].
    unfold main_select_remote. rewrite Hd. unfold bind, reading, input. rewrite Hin.
    destruct H as [E|E]; rewrite E; reflexivity.
  - intros cmd. unfold main_confirm, bind, reading, input. rewrite Hin.
    destruct H as [E|E]; rewrite E; reflexivity.
Qed.

(** The two confirmations of [main] show the help and return. *)
Lemma help_at_confirmations (w : World) (l x : string) (rest : list string) :
  is_help (lower (strip l)) = true ->
  stdin w = l :: x :: rest ->
  (forall remotes, remotes <> [] ->
      main_select_remote remotes w = (Ok None, with_stdin w rest))
  /\ (forall cmd, main_confirm cmd w = (Ok tt, with_stdin w rest)).
Proof.
  intros H Hin. apply help_line_cases in H. split.
  - intros remotes Hne. destruct (default_remote_ok remotes Hne) as [d Hd].
    unfold main_select_remote. rewrite Hd. unfold bind, reading, input. rewrite Hin.
    destruct H as [E|[E|E]]; rewrite E; reflexivity.
  - intros cmd. unfold main_confirm, bind, reading, input. rewrite Hin.
    destruct H as [E|[E|E]]; rewrite E; reflexivity.
Qed.

(** C7, amended statement. The help tokens h, help and ? (in any case, with
    surrounding blanks) are recognized as a help request by the yes/no
    prompts, the remote pick-list, the source menu, the folder browser and
    the two confirmations of [main].  The quit tokens q and quit are
    recognized as a quit command by the remote pick-list, the source menu,
    the folder browser and the two confirmations, each ending there without
    a selection; the remote pick-list recognizes salir as well.  The yes/no
    prompts have no quit command: on a quit token they ask again. *)
Theorem C7_prompt_tokens (l x : string) (rest : list string) :
  (is_help (lower (strip l)) = true ->
     (forall d, ask_yes_no d (l :: x :: rest) = ask_yes_no d rest)
     /\ (forall remotes, pick_remote remotes (l :: x :: rest) = pick_remote remotes rest)
     /\ (forall f current,
            folder_browser f (l :: x :: rest) current = folder_browser f rest current)
     /\ (forall f e docs desk,
            choose_loop f e docs desk (l :: x :: rest) = choose_loop f e docs desk rest)
     /\ (forall w, stdin w = l :: x :: rest ->
            (forall remotes, remotes <> [] ->
                main_select_remote remotes w = (Ok None, with_stdin w rest))
            /\ (forall cmd, main_confirm cmd w = (Ok tt, with_stdin w rest))))
  /\ (elem (lower (strip l)) ["q"; "quit"] = true ->
        (forall remotes, pick_remote remotes (l :: rest) = (Ok "", rest))
        /\ (forall f current, folder_browser f (l :: rest) current = (Ok None, rest))
        /\ (forall f e docs desk, choose_loop f e docs desk (l :: rest) = (Ok None, rest))
        /\ (forall w, stdin w = l :: rest ->
               (forall remotes, remotes <> [] ->
                   main_select_remote remotes w = (Ok None, with_stdin w rest))
               /\ (forall cmd, main_confirm cmd w = (Ok tt, with_stdin w rest))))
  /\ (lower (strip l) = "salir" ->
        forall remotes, pick_remote remotes (l :: rest) = (Ok "", rest))
  /\ (elem (lower (strip l)) ["q"; "quit"; "salir"] = true ->
        forall d, ask_yes_no d (l :: rest) = ask_yes_no d rest).
Proof.
  split; [|split; [|split]].
  - intros H. destruct (help_is_recognized l x rest H) as (A & B & C & D).
    repeat split; auto; intros; now apply (help_at_confirmations w l x rest).
  - intros H. destruct (quit_is_recognized l rest H) as (A & B & C).
    repeat split; auto; intros; now apply (quit_at_confirmations w l rest).
  - intros E remotes. cbn [pick_remote]. rewrite E. reflexivity.
  - intros H d. apply elem_In in H. cbn [ask_yes_no].
    destruct H as [E|[E|[E|[]]]]; rewrite <- E; reflexivity.
Qed.

Lemma C7_prompt_tokens_witness :
  (forall f current rest,
      folder_browser f (" H " :: "" :: rest) current = folder_browser f rest current)
  /\ (forall f current rest, folder_browser f ("Quit" :: rest) current = (Ok None, rest))
  /\ (forall remotes rest, pick_remote remotes ("salir" :: rest) = (Ok "", rest))
  /\ (forall d rest, ask_yes_no d ("q" :: rest) = ask_yes_no d rest).
Proof.
  split; [|split; [|split]]; intros.
  - now apply (C7_prompt_tokens " H " "" rest).
  - now apply (C7_prompt_tokens "Quit" "" rest).
  - now apply (C7_prompt_tokens "salir" "" rest).
  - now apply (C7_prompt_tokens "q" "" rest).
Defined.

(** C7 as first stated does not hold.  A yes/no prompt does not end on "q": it
    asks again and takes the next line as the answer.  The folder browser and
    the two confirmations do not end on "salir": the browser asks again, the
    first confirmation goes on with the default remote and the final one runs
    the command.  The destination prompt takes "h" as the folder name. *)
Lemma C7_counterexample :
  ~ (forall tok, In tok ["q"; "quit"; "salir"] ->
       forall d rest, snd (ask_yes_no d (tok :: rest)) = rest)
  /\ ~ (forall tok, In tok ["q"; "quit"; "salir"] ->
          forall f current rest, folder_browser f (tok :: rest) current = (Ok None, rest))
  /\ ask_yes_no true ["q"; "n"] = (Ok false, [])
  /\ folder_browser Sample.tree ["salir"; ""; "b"] Sample.documents
     = (Ok (Some Sample.documents), [])
  /\ fst (main_select_remote ["gdrive"; "work"] (Sample.world Sample.healthy_tool ["salir"]))
     = Ok (Some "gdrive")
  /\ executed (snd (main_confirm ["rclone"; "copy"; "a"; "gdrive:b"; "--fast-list"]
                      (Sample.world Sample.healthy_tool ["salir"; ""])))
     = [["rclone"; "copy"; "a"; "gdrive:b"; "--fast-list"]]
  /\ fst (main_backup "rclone" "gdrive" Sample.documents
            (Sample.world Sample.healthy_tool ["h"; "n"; "n"; "n"]))
     = Ok ["rclone"; "copy"; "/home/u/Documents"; "gdrive:h"; "--fast-list"].
Proof.
  split; [|split; [|repeat split]].
  - intros H. specialize (H "q" (or_introl eq_refl) true ["n"]). discriminate H.
  - intros H.
    specialize (H "salir" (or_intror (or_intror (or_introl eq_refl)))
                  Sample.tree Sample.documents [""; "b"]).
    discriminate H.
Qed.

(** ** C8: the default remote *)

(** C8. For a non-empty list of remotes the default is "gdrive" when it is
    among them and the first one otherwise; an answer to the confirmation
    that is neither a help, a quit nor a no token (in particular a bare
    ENTER) keeps this default as the remote of the run. *)
Theorem C8_default_remote (remotes : list string) :
  remotes <> [] ->
  (In "gdrive" remotes -> default_remote remotes = Ok "gdrive")
  /\ (~ In "gdrive" remotes -> default_remote remotes = Ok (hd "" remotes))
  /\ (exists d, default_remote remotes = Ok d /\
        forall w l rest,
          stdin w = l :: rest ->
          elem (or_else (lower (strip l)) "s") ["h"; "help"; "?"; "q"; "quit"; "n"; "no"]
            = false ->
          main_select_remote remotes w = (Ok (Some d), with_stdin w rest)).
Proof.
  intros Hne. split; [|split].
  - intros H. apply elem_In in H. unfold default_remote. now rewrite H.
  - intros H. unfold default_remote.
    destruct (elem "gdrive" remotes) eqn:E; [apply elem_In in E; contradiction|].
    destruct remotes; [contradiction | reflexivity].
  - destruct (default_remote_ok remotes Hne) as [d Hd]. exists d. split; [exact Hd|].
    intros w l rest Hin Hans. unfold main_select_remote. rewrite Hd.
    unfold bind, reading, input. rewrite Hin. cbv zeta.
    set (ans := or_else (lower (strip l)) "s") in *.
    cbn [elem] in Hans. repeat (apply orb_false_iff in Hans; destruct Hans as [? Hans]).
    unfold is_help. cbn [elem].
    repeat match goal with H : String.eqb ans _ = false |- _ => rewrite H; clear H end.
    reflexivity.
Qed.

(** The list of the specification: the default of ["gdrive"; "work"] is
    "gdrive", and ENTER at the confirmation keeps it. *)
Lemma C8_default_remote_witness :
  default_remote ["gdrive"; "work"] = Ok "gdrive"
  /\ default_remote ["work"; "box"] = Ok "work".
Proof.
  split.
  - destruct (C8_default_remote ["gdrive"; "work"]) as (H & _ & _); [discriminate|].
    apply H. now left.
  - destruct (C8_default_remote ["work"; "box"]) as (_ & H & _); [discriminate|].
    apply H. simpl. intros [K|[K|[]]]; discriminate.
Defined.

Example default_kept_on_enter :
  main_select_remote ["gdrive"; "work"] (Sample.world Sample.healthy_tool [""; "next"])
  = (Ok (Some "gdrive"), Sample.world Sample.healthy_tool ["next"]).
Proof. reflexivity. Qed.

(** ** C9: no remote configured and the setup wizard declined *)

Lemma get_remotes_world (rclone : string) (w : World) :
  snd (get_remotes rclone w)
  = with_executed w (executed w ++ [[rclone; "listremotes"]]).
Proof.
  unfold get_remotes, check_output.
  destruct (tool w (executed w) [rclone; "listremotes"]) as [rc out|]; [|reflexivity].
  destruct (Z.eqb rc 0); reflexivity.
Qed.

Lemma transfers_listremotes (w : World) (rclone : string) (i : list string) :
  transfers (with_stdin (with_executed w (executed w ++ [[rclone; "listremotes"]])) i)
  = transfers w.
Proof.
  unfold transfers; simpl. rewrite filter_app, length_app. simpl. lia.
Qed.

(** C9. When the query for the configured remotes yields none and the user
    answers no to the setup wizard, [main] returns normally, so the exit
    status is 0; the query is the only invocation of the tool the run has
    made, and no transfer command has been run. *)
Theorem C9_no_remotes_declined
    (w : World) (rclone x : string) (rest rest' : list string) :
  stdin w = x :: rest ->
  which_rclone w = Some rclone ->
  rclone <> "" ->
  fst (get_remotes rclone (with_stdin w rest)) = Ok [] ->
  ask_yes_no true rest = (Ok false, rest') ->
  main w = (Ok tt, with_stdin
                     (with_executed w (executed w ++ [[rclone; "listremotes"]])) rest')
  /\ exit_status (fst (main w)) = 0%Z
  /\ executed (snd (main w)) = (executed w ++ [[rclone; "listremotes"]])%list
  /\ transfers (snd (main w)) = transfers w.
Proof.
  intros Hin Hwhich Hne Hnone Hask.
  assert (E : main w = (Ok tt, with_stdin
                (with_executed w (executed w ++ [[rclone; "listremotes"]])) rest')).
  { unfold main, bind at 1, reading at 1, pause, input. rewrite Hin.
    unfold bind at 1, require_rclone. cbn [which_rclone with_stdin]. rewrite Hwhich.
    destruct rclone as [|c r]; [contradiction|].
    unfold bind at 1.
    pose proof (get_remotes_world (String c r) (with_stdin w rest)) as Hw.
    destruct (get_remotes (String c r) (with_stdin w rest)) as [res w1].
    simpl in Hnone, Hw. subst res w1.
    unfold bind, reading. cbn [stdin with_executed with_stdin]. rewrite Hask.
    reflexivity. }
  rewrite E. repeat split. apply transfers_listremotes.
Qed.

Lemma C9_no_remotes_declined_witness :
  main (Sample.world Sample.unconfigured_tool [""; "n"])
  = (Ok tt, with_executed (Sample.world Sample.unconfigured_tool [])
              [["/usr/bin/rclone"; "listremotes"]])
  /\ exit_status (fst (main (Sample.world Sample.unconfigured_tool [""; "n"]))) = 0%Z.
Proof.
  destruct (C9_no_remotes_declined (Sample.world Sample.unconfigured_tool [""; "n"])
              "/usr/bin/rclone" "" ["n"] [])
    as (H1 & H2 & _); try reflexivity; [discriminate|].
  split; [exact H1 | exact H2].
Defined.

(** ** C10: help at the two confirmations of [main] *)

(** C10. At the confirmation of the remote and at the final confirmation a
    help token shows the help (whose [pause] takes one more line) and then
    makes [main] return: the exit status is 0, no further prompt is made and
    the tool is not invoked. *)
Theorem C10_help_ends_run (w : World) (l x : string) (rest : list string) :
  is_help (lower (strip l)) = true ->
  stdin w = l :: x :: rest ->
  (forall rclone remotes, remotes <> [] ->
      main_with_remotes rclone remotes w = (Ok tt, with_stdin w rest))
  /\ (forall cmd, main_confirm cmd w = (Ok tt, with_stdin w rest))
  /\ exit_status (Ok tt) = 0%Z
  /\ executed (with_stdin w rest) = executed w.
Proof.
  intros H Hin. destruct (help_at_confirmations w l x rest H Hin) as [A B].
  repeat split; [|exact B].
  intros rclone remotes Hne. unfold main_with_remotes, bind.
  now rewrite (A remotes Hne).
Qed.

Lemma C10_help_ends_run_witness :
  main_with_remotes "/usr/bin/rclone" ["gdrive"; "work"]
    (Sample.world Sample.healthy_tool ["H"; ""; "s"])
  = (Ok tt, Sample.world Sample.healthy_tool ["s"])
  /\ main_confirm ["/usr/bin/rclone"; "copy"; "/home/u/Documents"; "gdrive:Backup0RG";
                   "--fast-list"]
       (Sample.world Sample.healthy_tool ["?"; ""; "s"])
     = (Ok tt, Sample.world Sample.healthy_tool ["s"]).
Proof.
  destruct (C10_help_ends_run (Sample.world Sample.healthy_tool ["H"; ""; "s"])
              "H" "" ["s"] eq_refl eq_refl) as (A & _).
  destruct (C10_help_ends_run (Sample.world Sample.healthy_tool ["?"; ""; "s"])
              "?" "" ["s"] eq_refl eq_refl) as (_ & B & _).
  split; [apply A; discriminate | apply B].
Defined.

(** ** Whole runs *)

(** The first end-to-end scenario of the specification, in the sample home:
    default remote, healthy listing, source chosen in the browser, default
    destination, no versioning, dry run, progress, confirmed. *)
Example run_dry_copy :
  let r := main (Sample.world Sample.healthy_tool
                   [""; ""; ""; "1"; "b"; ""; "n"; ""; ""; ""; ""]) in
  fst r = Ok tt
  /\ executed (snd r)
     = [["/usr/bin/rclone"; "listremotes"];
        ["/usr/bin/rclone"; "lsd"; "gdrive:"];
        ["/usr/bin/rclone"; "copy"; "/home/u/Documents/Alpha"; "gdrive:Backup0RG";
         "--fast-list"; "--dry-run"; "--progress"]].
Proof. split; reflexivity. Qed.

(** Versioning with the base name "V", on 2024-01-02. *)
Example run_versioned_copy :
  executed (snd (main (Sample.world Sample.healthy_tool
                         [""; ""; ""; "1"; "b"; ""; ""; "V"; ""; ""; ""; ""])))
  = [["/usr/bin/rclone"; "listremotes"];
     ["/usr/bin/rclone"; "lsd"; "gdrive:"];
     ["/usr/bin/rclone"; "copy"; "/home/u/Documents/Alpha"; "gdrive:Backup0RG";
      "--fast-list"; "--backup-dir"; "gdrive:V/2024-01-02"; "--dry-run"; "--progress"]].
Proof. reflexivity. Qed.

(** Help at the confirmation of the remote, and at the final confirmation:
    the run is over and nothing has been copied. *)
Example run_help_at_remote :
  let r := main (Sample.world Sample.healthy_tool [""; "h"; ""; "s"]) in
  exit_status (fst r) = 0%Z /\ stdin (snd r) = ["s"] /\ transfers (snd r) = 0.
Proof. repeat split. Qed.

Example run_help_at_final :
  let r := main (Sample.world Sample.healthy_tool
                   [""; ""; ""; "1"; "b"; ""; "n"; ""; ""; "help"; ""; "s"]) in
  exit_status (fst r) = 0%Z /\ stdin (snd r) = ["s"] /\ transfers (snd r) = 0.
Proof. repeat split. Qed.

(** An expired token: the reauthorization is accepted and repairs the remote,
    and the run goes on to the source menu, where it is cancelled. *)
Example run_reauthorized :
  let r := main (Sample.world Sample.expired_tool [""; ""; "s"; ""; "q"]) in
  fst r = Ok tt
  /\ executed (snd r)
     = [["/usr/bin/rclone"; "listremotes"];
        ["/usr/bin/rclone"; "lsd"; "gdrive:"];
        ["/usr/bin/rclone"; "config"; "reconnect"; "gdrive:"];
        ["/usr/bin/rclone"; "lsd"; "gdrive:"]].
Proof. split; reflexivity. Qed.

(** * Further properties of the code *)

(** Induction over the pending input for loops that take one or two lines
    per turn. *)
Lemma input_induction (P : list string -> Prop) :
  (forall i,
      (forall l rest, i = l :: rest -> P rest) ->
      (forall l x rest, i = l :: x :: rest -> P rest) -> P i) ->
  forall i, P i.
Proof.
  intros step i.
  assert (H : forall n i, length i <= n -> P i).
  { induction n as [|n IH]; intros j Hj; apply step; intros; subst; simpl in Hj;
      try lia; apply IH; simpl; lia. }
  apply (H (length i)). lia.
Qed.

(** ** The yes/no prompt (lines 107-120) *)

Lemma decisive_not_help (l : string) :
  decisive l = true -> is_help (lower (strip l)) = false.
Proof.
  unfold decisive. cbv zeta. rewrite !orb_true_iff, String.eqb_eq, !elem_In.
  intros [[E|E]|E].
  - now rewrite E.
  - simpl in E. destruct E as [E|[E|[E|[E|[E|[]]]]]]; rewrite <- E; reflexivity.
  - simpl in E. destruct E as [E|[E|[]]]; rewrite <- E; reflexivity.
Qed.

Lemma ask_yes_no_decisive (d : bool) (l : string) (rest : list string) :
  decisive l = true -> ask_yes_no d (l :: rest) = (Ok (answer d l), rest).
Proof.
  intros H. pose proof (decisive_not_help l H) as Hh.
  unfold decisive in H. unfold answer. cbn [ask_yes_no]. cbv zeta in *. rewrite Hh.
  destruct (String.eqb (lower (strip l)) ""); [reflexivity|].
  destruct (elem (lower (strip l)) ["s"; "si"; si_accent; "y"; "yes"]); [reflexivity|].
  cbn [orb] in H. now rewrite H.
Qed.

Lemma ask_yes_no_skip (d : bool) (l : string) (rest : list string) :
  decisive l = false -> is_help (lower (strip l)) = false ->
  ask_yes_no d (l :: rest) = ask_yes_no d rest.
Proof.
  unfold decisive. cbv zeta. intros H Hh.
  apply orb_false_iff in H. destruct H as [H H3].
  apply orb_false_iff in H. destruct H as [H1 H2].
  change (ask_yes_no d (l :: rest)) with
    (if is_help (lower (strip l)) then
       match rest with [] => (Raise EOFError, []) | _ :: rest' => ask_yes_no d rest' end
     else if String.eqb (lower (strip l)) "" then (Ok d, rest)
     else if elem (lower (strip l)) ["s"; "si"; si_accent; "y"; "yes"] then (Ok true, rest)
     else if elem (lower (strip l)) ["n"; "no"] then (Ok false, rest)
     else ask_yes_no d rest).
  now rewrite Hh, H1, H2, H3.
Qed.

(** X1. Answers that are neither a yes, a no, an empty line nor a help request
    are passed over: the question is asked again until a decisive line
    comes, which gives the result; the empty line gives the default. *)
Theorem ask_yes_no_reprompts
    (d : bool) (invalid : list string) (l : string) (rest : list string) :
  Forall (fun x => decisive x = false /\ is_help (lower (strip x)) = false) invalid ->
  decisive l = true ->
  ask_yes_no d (invalid ++ l :: rest) = (Ok (answer d l), rest).
Proof.
  intros Hinv Hl. induction Hinv as [|x invalid [Hx Hh] _ IH]; simpl app.
  - now apply ask_yes_no_decisive.
  - rewrite ask_yes_no_skip by assumption. exact IH.
Qed.

(** Among the decisive answers are the accented yes in capitals (S, then I
    with acute, 205) and a no that is followed by a no-break space (160). *)
Lemma ask_yes_no_reprompts_witness :
  ask_yes_no false ["maybe"; "q"; " YES "; "n"] = (Ok true, ["n"])
  /\ ask_yes_no false ["x"; ""; "s"] = (Ok false, ["s"])
  /\ ask_yes_no false ["salir"; String "S" (String (ascii_of_nat 205) ""); "n"]
     = (Ok true, ["n"])
  /\ ask_yes_no true ["?"; ""; String "N" (String (ascii_of_nat 160) ""); "s"]
     = (Ok false, ["s"]).
Proof.
  split; [|split; [|split]].
  - apply (ask_yes_no_reprompts false ["maybe"; "q"] " YES " ["n"]).
    + repeat constructor.
    + reflexivity.
  - apply (ask_yes_no_reprompts false ["x"] "" ["s"]).
    + repeat constructor.
    + reflexivity.
  - apply (ask_yes_no_reprompts false ["salir"] (String "S" (String (ascii_of_nat 205) ""))
             ["n"]).
    + repeat constructor.
    + reflexivity.
  - reflexivity.
Defined.


(** ** The remote pick-list (lines 146-171) *)

Lemma lower_digit (c : ascii) : is_digit c = true -> lower_char c = c.
Proof.
  destruct c as [[] [] [] [] [] [] [] []]; intros H; try discriminate H; reflexivity.
Qed.

Lemma digits_first (s : string) :
  isdigit s = true -> exists c s', s = String c s' /\ is_digit c = true.
Proof.
  destruct s as [|c s]; [discriminate|]. intros H. exists c, s. split; [reflexivity|].
  simpl in H. now apply andb_true_iff in H.
Qed.

Lemma digit_not_pick_command (c : ascii) (s : string) :
  is_digit c = true ->
  is_help (String c s) = false /\ elem (String c s) ["q"; "quit"; "salir"] = false.
Proof.
  destruct c as [[] [] [] [] [] [] [] []]; intros H; try discriminate H;
    split; reflexivity.
Qed.

Lemma digits_not_pick_command (s : string) :
  isdigit s = true ->
  is_help (lower s) = false /\ elem (lower s) ["q"; "quit"; "salir"] = false.
Proof.
  intros H. destruct (digits_first s H) as (c & s' & -> & Hc).
  cbn [lower]. rewrite (lower_digit c Hc). now apply digit_not_pick_command.
Qed.

(** X5. An answer made of digits is always read as a number of the list, never
    as a name.  When [int] converts it, the remote with that number is picked
    if the number is between 1 and the length of the list; otherwise the
    answer is invalid, also when a remote has that very name, and after the
    pause the list is shown again.  When [int] refuses it (a numeral of more
    than 4300 digits, or one with a superscript digit) the [ValueError]
    leaves the pick-list. *)
Theorem pick_remote_by_number
    (remotes : list string) (l x : string) (rest : list string) :
  isdigit (strip l) = true ->
  (forall k, int (strip l) = Some k ->
     ((1 <= k <= N.of_nat (length remotes))%N ->
      exists r, nth_error remotes (N.to_nat k - 1) = Some r
                /\ pick_remote remotes (l :: rest) = (Ok r, rest))
     /\ ((k = 0 \/ N.of_nat (length remotes) < k)%N ->
         pick_remote remotes (l :: x :: rest) = pick_remote remotes rest))
  /\ (int (strip l) = None ->
      pick_remote remotes (l :: rest) = (Raise ValueError, rest)).
Proof.
  intros Hd. destruct (digits_not_pick_command _ Hd) as [H1 H2].
  split; [intros k Hk; split|].
  - intros [Hlo Hhi].
    destruct (nth_error remotes (N.to_nat k - 1)) as [r|] eqn:E.
    + exists r. split; [reflexivity|]. cbn [pick_remote]. rewrite H1, H2, Hd, Hk.
      replace ((1 <=? k)%N) with true by (symmetry; now apply N.leb_le).
      replace ((k <=? N.of_nat (length remotes))%N) with true
        by (symmetry; now apply N.leb_le).
      cbn [andb]. replace (N.to_nat (k - 1)) with (N.to_nat k - 1) by lia.
      now rewrite E.
    + apply nth_error_None in E. lia.
  - intros Hout. cbn [pick_remote]. rewrite H1, H2, Hd, Hk.
    replace ((1 <=? k)%N && (k <=? N.of_nat (length remotes))%N) with false;
      [reflexivity|].
    symmetry. apply andb_false_iff. destruct Hout as [->|Hgt].
    + now left.
    + right. apply N.leb_gt. exact Hgt.
  - intros Hk. cbn [pick_remote]. now rewrite H1, H2, Hd, Hk.
Qed.

Lemma pick_remote_by_number_witness :
  pick_remote ["gdrive"; "work"; "3"] (" 2 " :: ["z"]) = (Ok "work", ["z"])
  /\ pick_remote ["gdrive"; "7"] ("7" :: "" :: ["q"]) = (Ok "", [])
  /\ pick_remote ["gdrive"] [String (ascii_of_nat 178) ""; "1"] = (Raise ValueError, ["1"]).
Proof.
  split; [|split].
  - destruct (pick_remote_by_number ["gdrive"; "work"; "3"] " 2 " "" ["z"] eq_refl)
      as [H _].
    destruct (H 2%N eq_refl) as [H' _].
    destruct H' as (r & Hr & E); [vm_compute; split; discriminate|].
    vm_compute in Hr. inversion Hr; subst r. exact E.
  - destruct (pick_remote_by_number ["gdrive"; "7"] "7" "" ["q"] eq_refl) as [H _].
    destruct (H 7%N eq_refl) as [_ H'].
    rewrite H'; [reflexivity|]. right. reflexivity.
  - destruct (pick_remote_by_number ["gdrive"] (String (ascii_of_nat 178) "") "" ["1"]
                eq_refl) as [_ H].
    apply H. reflexivity.
Defined.

Lemma pick_remote_ends (remotes : list string) (i : list string) :
  (exists r rest, pick_remote remotes i = (Ok r, rest) /\ (r = "" \/ In r remotes))
  \/ pick_remote remotes i = (Raise EOFError, [])
  \/ (exists l rest,
        pick_remote remotes i = (Raise ValueError, rest)
        /\ In l i /\ isdigit (strip l) = true /\ int (strip l) = None).
Proof.
  induction i as [i IH1 IH2] using input_induction.
  destruct i as [|l i]; cbn [pick_remote]; [right; now left|].
  assert (Later : forall x i',
             i = x :: i' ->
             (exists r rest, pick_remote remotes i' = (Ok r, rest) /\ (r = "" \/ In r remotes))
             \/ pick_remote remotes i' = (Raise EOFError, [])
             \/ (exists l0 rest,
                   pick_remote remotes i' = (Raise ValueError, rest)
                   /\ In l0 (l :: i) /\ isdigit (strip l0) = true /\ int (strip l0) = None)).
  { intros x i' ->. destruct (IH2 l x i' eq_refl) as [H|[H|(l0 & rest & E & Hin & H)]];
      [now left | right; now left | right; right].
    exists l0, rest. split; [exact E|]. split; [right; right; exact Hin | exact H]. }
  destruct (is_help (lower (strip l))).
  { destruct i as [|x i]; [right; now left|]. exact (Later x i eq_refl). }
  destruct (elem (lower (strip l)) ["q"; "quit"; "salir"]); [left; eauto|].
  destruct (isdigit (strip l)) eqn:Hd.
  - destruct (int (strip l)) as [k|] eqn:Hk.
    + destruct ((1 <=? k)%N && (k <=? N.of_nat (length remotes))%N).
      * destruct (nth_error remotes (N.to_nat (k - 1))) as [r|] eqn:E.
        -- left. exists r, i. split; [reflexivity|]. right. eapply nth_error_In; eauto.
        -- destruct i as [|x i]; [right; now left|]. exact (Later x i eq_refl).
      * destruct i as [|x i]; [right; now left|]. exact (Later x i eq_refl).
    + right. right. exists l, i. split; [reflexivity|]. split; [now left | auto].
  - destruct (elem (strip l) remotes) eqn:El.
    + left. exists (strip l), i. split; [reflexivity|]. right. now apply elem_In.
    + destruct i as [|x i]; [right; now left|]. exact (Later x i eq_refl).
Qed.


(** ** The folder browser (lines 235-282) *)





Example folder_browser_numeral_refused :
  folder_browser Sample.tree ["1"; String (ascii_of_nat 179) ""; "b"] Sample.documents
  = (Raise ValueError, ["b"])
  /\ folder_browser Sample.tree ["9"; ""; "x"; ""; "1"; "b"] Sample.documents
     = (Ok (Some (child Sample.documents "Alpha")), []).
Proof. split; reflexivity. Qed.

(** X11. Ascending from a path without components (the root, or the bare current
    directory) changes nothing: the browser goes on in the same place. *)
Theorem ascend_from_root_is_noop
    (f : FileSystem) (current : Path) (l : string) (rest : list string) :
  parts current = [] ->
  lower (strip l) = "u" ->
  browser_step f current "u" = NavMove current
  /\ folder_browser f (l :: rest) current = folder_browser f rest current.
Proof.
  intros Hp Hl.
  assert (E : browser_step f current "u" = NavMove current).
  { unfold browser_step. cbn [is_help elem String.eqb Ascii.eqb Bool.eqb orb andb].
    assert (Hpar : parent current = current).
    { destruct current as [a ps]. simpl in Hp. subst ps. reflexivity. }
    rewrite Hpar. now destruct (negb _). }
  split; [exact E|]. cbn [folder_browser]. now rewrite Hl, E.
Qed.

Lemma ascend_from_root_is_noop_witness :
  folder_browser Sample.tree [" U "; "b"] (mkPath "/" []) = (Ok (Some (mkPath "/" [])), []).
Proof.
  destruct (ascend_from_root_is_noop Sample.tree (mkPath "/" []) " U " ["b"] eq_refl eq_refl)
    as [_ H].
  rewrite H. reflexivity.
Defined.

(** X12. A number that [int] converts and that is 0 or larger than the number
    of listed subfolders is refused: after the pause the browser is where it
    was. *)
Theorem number_out_of_range_stays
    (f : FileSystem) (current : Path) (l x : string) (rest : list string) (k : N) :
  isdigit (lower (strip l)) = true ->
  int (lower (strip l)) = Some k ->
  (k = 0 \/ N.of_nat (length (list_subfolders f current)) < k)%N ->
  browser_step f current (lower (strip l)) = NavInvalid
  /\ folder_browser f (l :: x :: rest) current = folder_browser f rest current.
Proof.
  intros Hd Hk Hout.
  assert (E : browser_step f current (lower (strip l)) = NavInvalid).
  { unfold browser_step.
    destruct (digits_first _ Hd) as (c & s & Ec & Hc).
    destruct (digit_not_command c s Hc) as (K1 & K2 & K3 & K4).
    rewrite <- Ec in K1, K2, K3, K4. rewrite K1, K2, K3, K4, Hd, Hk.
    replace ((1 <=? k)%N && (k <=? N.of_nat (length (list_subfolders f current)))%N)
      with false; [reflexivity|].
    symmetry. apply andb_false_iff. destruct Hout as [->|Hgt].
    - now left.
    - right. now apply N.leb_gt. }
  split; [exact E|]. cbn [folder_browser]. now rewrite E.
Qed.

Lemma number_out_of_range_stays_witness :
  folder_browser Sample.tree ["4"; ""; "0"; ""; "b"] Sample.documents
  = (Ok (Some Sample.documents), []).
Proof.
  destruct (number_out_of_range_stays Sample.tree Sample.documents "4" "" ["0"; ""; "b"] 4%N
              eq_refl eq_refl) as [_ H1]; [right; reflexivity|].
  destruct (number_out_of_range_stays Sample.tree Sample.documents "0" "" ["b"] 0%N
              eq_refl eq_refl) as [_ H2]; [left; reflexivity|].
  rewrite H1, H2. reflexivity.
Defined.

(** ** The order of the listing (lines 225-232) *)

Lemma string_leb_refl (s : string) : String.leb s s = true.
Proof. destruct (String.leb_total s s); assumption. Qed.

Section Stability.
Context {A : Type} (key : A -> string) (k : string).

Let same (x : A) : bool := String.eqb (key x) k.

Lemma insert_by_same (x : A) (l : list A) :
  filter same (insert_by key x l) = filter same (x :: l).
Proof.
  induction l as [|y l IH]; [reflexivity|].
  cbn [insert_by]. destruct (String.leb (key x) (key y)) eqn:E; [reflexivity|].
  cbn [filter] in *. rewrite IH.
  destruct (same x) eqn:Sx; [|reflexivity].
  destruct (same y) eqn:Sy; [|reflexivity].
  unfold same in Sx, Sy. apply String.eqb_eq in Sx. apply String.eqb_eq in Sy.
  rewrite Sx, Sy, string_leb_refl in E. discriminate.
Qed.

Lemma sorted_by_same (l : list A) :
  filter same (sorted_by key l) = filter same l.
Proof.
  induction l as [|x l IH]; [reflexivity|].
  cbn [sorted_by]. rewrite insert_by_same. cbn [filter]. now rewrite IH.
Qed.
End Stability.

(** X9. The sort is stable: the subfolders whose names are equal up to case
    appear in the listing in the order in which the directory gave them. *)
Theorem list_subfolders_stable
    (f : FileSystem) (path : Path) (names : list string) (k : string) :
  iterdir f path = Some names ->
  (forall n, In n names -> is_dir f (child path n) <> None) ->
  filter (fun p => String.eqb (lower (name p)) k) (list_subfolders f path)
  = filter (fun p => String.eqb (lower (name p)) k)
           (map (child path) (filter (listed f path) names)).
Proof.
  intros Hit Hdir. unfold list_subfolders.
  rewrite Hit, (select_dirs_ok _ _ _ Hdir).
  apply (sorted_by_same (fun x => lower (name x)) k).
Qed.

Lemma list_subfolders_stable_witness :
  let f := mkFS (fun _ => Some ["b"; "Readme"; "README"; "a"; "readme"])
                (fun _ => Some true) (fun _ => Some true) in
  list_subfolders f Sample.home_u
  = map (child Sample.home_u) ["a"; "b"; "Readme"; "README"; "readme"]
  /\ filter (fun p => String.eqb (lower (name p)) "readme") (list_subfolders f Sample.home_u)
     = map (child Sample.home_u) ["Readme"; "README"; "readme"].
Proof.
  intros f. split; [reflexivity|].
  rewrite (list_subfolders_stable f Sample.home_u
             ["b"; "Readme"; "README"; "a"; "readme"] "readme");
    [reflexivity | reflexivity | discriminate].
Defined.

(** ** Stripping (lines 141, 407, 416) *)

Lemma lstrip_by_first (p : ascii -> bool) (s : string) :
  holds p (first_char (lstrip_by p s)) = false.
Proof.
  induction s as [|c s IH]; [reflexivity|].
  cbn [lstrip_by]. destruct (p c) eqn:E; [exact IH|]. simpl. exact E.
Qed.

Lemma rstrip_by_last (p : ascii -> bool) (s : string) :
  holds p (last_char (rstrip_by p s)) = false.
Proof.
  induction s as [|c s IH]; [reflexivity|].
  cbn [rstrip_by]. destruct (rstrip_by p s) as [|d r] eqn:E.
  - destruct (p c) eqn:Ec; [reflexivity|]. simpl. exact Ec.
  - exact IH.
Qed.

Lemma rstrip_by_first (p : ascii -> bool) (s : string) :
  rstrip_by p s = "" \/ first_char (rstrip_by p s) = first_char s.
Proof.
  destruct s as [|c s]; [now left|].
  cbn [rstrip_by]. destruct (rstrip_by p s).
  - destruct (p c); [now left | now right].
  - now right.
Qed.

(** A stripped string neither begins nor ends with a stripped character. *)
Lemma strip_by_ends (p : ascii -> bool) (s : string) :
  holds p (first_char (strip_by p s)) = false
  /\ holds p (last_char (strip_by p s)) = false.
Proof.
  unfold strip_by. split; [|apply rstrip_by_last].
  destruct (rstrip_by_first p (lstrip_by p s)) as [E|E]; rewrite E.
  - reflexivity.
  - apply lstrip_by_first.
Qed.

(** ** The query for the remotes (lines 138-143) *)



Lemma append_assoc (a b c : string) : (a ++ b) ++ c = a ++ b ++ c.
Proof. induction a; simpl; [reflexivity | now rewrite IHa]. Qed.

Lemma append_empty_r (a : string) : a ++ "" = a.
Proof. induction a; simpl; [reflexivity | now rewrite IHa]. Qed.

Lemma splitlines_acc_line (cur n rest : string) :
  any_char is_linebreak n = false ->
  splitlines_acc cur (n ++ String (ascii_of_nat 10) rest)
  = (cur ++ n) :: splitlines_acc "" rest.
Proof.
  revert cur. induction n as [|c n IH]; intros cur H.
  - simpl. now rewrite append_empty_r.
  - cbn [any_char] in H. apply orb_false_iff in H. destruct H as [Hc Hn].
    cbn [append splitlines_acc]. rewrite Hc, (IH _ Hn), append_assoc. reflexivity.
Qed.

Lemma any_char_app (p : ascii -> bool) (a b : string) :
  any_char p (a ++ b) = any_char p a || any_char p b.
Proof. induction a; simpl; [reflexivity | now rewrite IHa, orb_assoc]. Qed.

Lemma splitlines_listremotes (names : list string) :
  Forall plain_name names ->
  splitlines (listremotes_output names) = map (fun n => n ++ ":") names.
Proof.
  unfold splitlines. induction 1 as [|n names (_ & Hn & _) _ IH]; [reflexivity|].
  cbn [listremotes_output map].
  change (n ++ String ":" (String (ascii_of_nat 10) "") ++ listremotes_output names)
    with (n ++ String ":" (String (ascii_of_nat 10) (listremotes_output names))).
  replace (n ++ String ":" (String (ascii_of_nat 10) (listremotes_output names)))
    with ((n ++ ":") ++ String (ascii_of_nat 10) (listremotes_output names))
    by (rewrite append_assoc; reflexivity).
  rewrite splitlines_acc_line.
  - now rewrite IH.
  - rewrite any_char_app, Hn. reflexivity.
Qed.

Lemma lstrip_by_id (p : ascii -> bool) (s : string) :
  holds p (first_char s) = false -> lstrip_by p s = s.
Proof. destruct s as [|c s]; simpl; [reflexivity|]. now intros ->. Qed.

Lemma rstrip_by_keep (p : ascii -> bool) (a : string) (c : ascii) :
  p c = false -> rstrip_by p (a ++ String c "") = a ++ String c "".
Proof.
  intros Hc. induction a as [|d a IH]; simpl.
  - now rewrite Hc.
  - rewrite IH. destruct a; reflexivity.
Qed.

Lemma rstrip_by_id (p : ascii -> bool) (s : string) :
  holds p (last_char s) = false -> rstrip_by p s = s.
Proof.
  induction s as [|c s IH]; [reflexivity|].
  destruct s as [|d s].
  - simpl. now intros ->.
  - intros H. change (last_char (String c (String d s))) with (last_char (String d s)) in H.
    cbn [rstrip_by] in *. now rewrite (IH H).
Qed.

Lemma rstrip_by_drop (p : ascii -> bool) (a : string) (c : ascii) :
  p c = true -> rstrip_by p (a ++ String c "") = rstrip_by p a.
Proof.
  intros Hc. induction a as [|d a IH]; simpl.
  - now rewrite Hc.
  - now rewrite IH.
Qed.

Lemma parse_remote_line (n : string) :
  plain_name n ->
  nonempty (strip (n ++ ":")) = true /\ rstrip_colon (strip (n ++ ":")) = n.
Proof.
  intros (Hf & _ & Hl).
  assert (E : strip (n ++ ":") = n ++ ":").
  { unfold strip, strip_by. rewrite lstrip_by_id.
    - now apply rstrip_by_keep.
    - destruct n; [reflexivity | exact Hf]. }
  rewrite E. split.
  - destruct n; reflexivity.
  - unfold rstrip_colon. rewrite rstrip_by_drop by reflexivity. now apply rstrip_by_id.
Qed.

(** X4. Round trip with the tool's output: when [listremotes] prints each remote
    as its name, a colon and a line feed, the query gives back exactly the
    names, in order, for names without a leading blank, an inner line break
    or a final colon. *)
Theorem get_remotes_round_trip (rclone : string) (w : World) (names : list string) :
  Forall plain_name names ->
  tool w (executed w) [rclone; "listremotes"] = Exited 0 (Some (listremotes_output names)) ->
  fst (get_remotes rclone w) = Ok names.
Proof.
  intros Hn Ht. unfold get_remotes, check_output. rewrite Ht. cbn [Z.eqb fst].
  f_equal. rewrite (splitlines_listremotes names Hn). clear Ht.
  induction Hn as [|n names Hn _ IH]; [reflexivity|].
  destruct (parse_remote_line n Hn) as [H1 H2].
  cbn [map filter]. rewrite H1. cbn [map]. now rewrite H2, IH.
Qed.

Lemma get_remotes_round_trip_witness :
  fst (get_remotes "/usr/bin/rclone"
         (Sample.world (fun _ _ => Exited 0 (Some (listremotes_output ["gdrive"; "my box"; "a:b"])))
                       []))
  = Ok ["gdrive"; "my box"; "a:b"].
Proof.
  apply get_remotes_round_trip; [|reflexivity].
  repeat constructor.
Defined.

(** ** The backup parameters (lines 406-428) *)

Lemma strip_slash_slashless (s : string) : slashless (strip_slash s).
Proof. apply strip_by_ends. Qed.

Lemma main_backup_result
    (rclone remote : string) (src : Path) (w w' : World) (cmd : list string) :
  main_backup rclone remote src w = (Ok cmd, w') ->
  executed w' = executed w
  /\ exists dest versions_base use_versions dry_run show_progress,
       cmd = build_cmd rclone src remote dest use_versions versions_base (now w)
               dry_run show_progress
       /\ slashless dest
       /\ slashless versions_base.
Proof.
  unfold main_backup, main_versions, bind, reading, input, show_help, pause, input, ret.
  destruct (stdin w) as [|l0 i0]; [discriminate|]. cbn [stdin with_stdin].
  destruct (ask_yes_no true i0) as [[[|]|e] i1]; [| |discriminate]; cbn [stdin with_stdin].
  - destruct i1 as [|l1 i1]; [discriminate|]. cbn [stdin with_stdin].
    destruct (is_help (lower (strip l1))); cbn [stdin with_stdin].
    + destruct i1 as [|x i1]; [discriminate|]. cbn [stdin with_stdin].
      destruct i1 as [|l2 i1]; [discriminate|]. cbn [stdin with_stdin fst snd].
      destruct (ask_yes_no true i1) as [[dry|e] i2]; [|discriminate]. cbn [stdin with_stdin].
      destruct (ask_yes_no true i2) as [[prog|e] i3]; [|discriminate].
      intros H; inversion H; subst; clear H. split; [reflexivity|].
      do 5 eexists. split; [reflexivity|]. split; apply strip_slash_slashless.
    + cbn [fst snd].
      destruct (ask_yes_no true i1) as [[dry|e] i2]; [|discriminate]. cbn [stdin with_stdin].
      destruct (ask_yes_no true i2) as [[prog|e] i3]; [|discriminate].
      intros H; inversion H; subst; clear H. split; [reflexivity|].
      do 5 eexists. split; [reflexivity|]. split; apply strip_slash_slashless.
  - cbn [fst snd].
    destruct (ask_yes_no true i1) as [[dry|e] i2]; [|discriminate]. cbn [stdin with_stdin].
    destruct (ask_yes_no true i2) as [[prog|e] i3]; [|discriminate].
    intros H; inversion H; subst; clear H. split; [reflexivity|].
    do 5 eexists. split; [reflexivity|]. split; [apply strip_slash_slashless|].
    split; reflexivity.
Qed.

(** X18. Whenever the parameter prompts end well, prompting has invoked no tool
    and the command is the one [build_cmd] makes for the given tool, source
    and remote, with the clock's date, a destination and a versions folder
    that carry no slash at either end. *)
Theorem main_backup_command
    (rclone remote : string) (src : Path) (w w' : World) (cmd : list string) :
  main_backup rclone remote src w = (Ok cmd, w') ->
  executed w' = executed w
  /\ exists dest versions_base use_versions dry_run show_progress,
       cmd = build_cmd rclone src remote dest use_versions versions_base (now w)
               dry_run show_progress
       /\ slashless dest
       /\ slashless versions_base.
Proof. exact (main_backup_result rclone remote src w w' cmd). Qed.

Lemma main_backup_command_witness :
  let w := Sample.world Sample.healthy_tool ["/Fotos/2024/"; "n"; "n"; "n"] in
  exists dest versions_base use_versions dry_run show_progress,
    ["rclone"; "copy"; "/home/u/Documents"; "gdrive:Fotos/2024"; "--fast-list"]
    = build_cmd "rclone" Sample.documents "gdrive" dest use_versions versions_base (now w)
        dry_run show_progress
    /\ slashless dest
    /\ slashless versions_base.
Proof.
  intros w.
  destruct (main_backup_command "rclone" "gdrive" Sample.documents w (with_stdin w [])
              ["rclone"; "copy"; "/home/u/Documents"; "gdrive:Fotos/2024"; "--fast-list"])
    as [_ H]; [reflexivity | exact H].
Defined.

Lemma ask_yes_no_blank (d : bool) (l : string) (rest : list string) :
  strip l = "" -> ask_yes_no d (l :: rest) = (Ok d, rest).
Proof. intros E. cbn [ask_yes_no]. rewrite E. reflexivity. Qed.

(** X19. The defaults: a bare ENTER at each of the five parameter prompts gives a
    dry run with progress display to [Backup0RG], with the overwritten files
    kept under [Backup0RG_Versiones/<date>]. *)
Theorem main_backup_defaults
    (rclone remote : string) (src : Path) (w : World)
    (l1 l2 l3 l4 l5 : string) (rest : list string) :
  stdin w = l1 :: l2 :: l3 :: l4 :: l5 :: rest ->
  strip l1 = "" -> strip l2 = "" -> strip l3 = "" -> strip l4 = "" -> strip l5 = "" ->
  main_backup rclone remote src w
  = (Ok [rclone; "copy"; to_string src; remote ++ ":Backup0RG"; "--fast-list";
         "--backup-dir"; remote ++ ":Backup0RG_Versiones/" ++ strftime_Ymd (now w);
         "--dry-run"; "--progress"],
     with_stdin w rest).
Proof.
  intros Hin E1 E2 E3 E4 E5.
  unfold main_backup, main_versions, bind, reading, input. rewrite Hin.
  cbn [stdin with_stdin]. rewrite (ask_yes_no_blank true l2) by assumption.
  cbn [stdin with_stdin]. rewrite E3. cbn [lower is_help elem String.eqb orb].
  cbn [ret stdin with_stdin]. rewrite (ask_yes_no_blank true l4) by assumption.
  cbn [stdin with_stdin]. rewrite (ask_yes_no_blank true l5) by assumption.
  rewrite E1. reflexivity.
Qed.

Lemma main_backup_defaults_witness :
  fst (main_backup "rclone" "gdrive" Sample.documents
         (Sample.world Sample.healthy_tool [""; " "; ""; ""; ""; "s"]))
  = Ok ["rclone"; "copy"; "/home/u/Documents"; "gdrive:Backup0RG"; "--fast-list";
        "--backup-dir"; "gdrive:Backup0RG_Versiones/2024-01-02"; "--dry-run"; "--progress"].
Proof.
  rewrite (main_backup_defaults "rclone" "gdrive" Sample.documents
             (Sample.world Sample.healthy_tool [""; " "; ""; ""; ""; "s"])
             "" " " "" "" "" ["s"]); reflexivity.
Defined.

(** X20. At the prompt for the versions folder the help is honoured once: the
    line typed after the help screen is taken as the folder name whatever it
    is, a help token included. *)
Theorem main_versions_help_once
    (w : World) (l1 x l2 : string) (rest : list string) :
  ask_yes_no true (stdin w) = (Ok true, l1 :: x :: l2 :: rest) ->
  is_help (lower (strip l1)) = true ->
  main_versions w
  = (Ok (true, strip_slash (or_else (strip l2) "Backup0RG_Versiones")), with_stdin w rest).
Proof.
  intros Hask Hh. unfold main_versions, bind, reading, input, show_help, pause, input.
  rewrite Hask. cbn [stdin with_stdin]. rewrite Hh. reflexivity.
Qed.

Lemma main_versions_help_once_witness :
  fst (main_versions (Sample.world Sample.healthy_tool ["s"; "h"; ""; "help"; "n"]))
  = Ok (true, "help").
Proof.
  rewrite (main_versions_help_once (Sample.world Sample.healthy_tool ["s"; "h"; ""; "help"; "n"])
             "h" "" "help" ["n"]); reflexivity.
Defined.

(** ** The final confirmation and the execution (lines 443-466) *)

(** X22. An answer n, no, q or quit (in any case, blanks around it stripped)
    ends the run without the command; every answer that is neither one of
    these nor a help token starts the command once.  A return code of the
    command other than 0 ends the run with [SystemExit] of that code: the
    status of the run is the code itself for an exit code from 1 to 255, and
    the low eight bits of it in general (a command killed by a signal has a
    negative return code).  After the return code 0 the run ends normally
    once the closing pause has been acknowledged. *)
Theorem main_confirm_outcomes
    (cmd : list string) (w : World) (l : string) (rest : list string) :
  stdin w = l :: rest ->
  let go := or_else (lower (strip l)) "s" in
  (elem go ["n"; "no"; "q"; "quit"] = true ->
   main_confirm cmd w = (Ok tt, with_stdin w rest))
  /\ (is_help go = false -> elem go ["n"; "no"; "q"; "quit"] = false ->
      let w1 := with_executed (with_stdin w rest) (executed w ++ [cmd]) in
      (forall rc o, tool w (executed w) cmd = Exited rc o -> rc <> 0%Z ->
          main_confirm cmd w = (Raise (SystemExit rc), w1)
          /\ exit_status (fst (main_confirm cmd w)) = (rc mod 256)%Z
          /\ ((0 < rc < 256)%Z -> exit_status (fst (main_confirm cmd w)) = rc))
      /\ (forall o x rest', tool w (executed w) cmd = Exited 0 o -> rest = x :: rest' ->
          main_confirm cmd w = (Ok tt, with_stdin w1 rest'))).
Proof.
  intros Hin go. split.
  - intros Hq. unfold main_confirm, bind, reading, input. rewrite Hin. fold go.
    assert (Hh : is_help go = false).
    { apply elem_In in Hq. simpl in Hq.
      destruct Hq as [E|[E|[E|[E|[]]]]]; rewrite <- E; reflexivity. }
    now rewrite Hh, Hq.
  - intros Hh Hq w1. split.
    + intros rc o Ht Hrc.
      assert (E : main_confirm cmd w = (Raise (SystemExit rc), w1)).
      { unfold main_confirm, bind, reading, input, call. rewrite Hin. fold go.
        rewrite Hh, Hq. cbn [stdin with_stdin executed tool]. rewrite Ht.
        destruct (Z.eqb_spec rc 0); [contradiction | reflexivity]. }
      rewrite E. split; [reflexivity|]. split; [reflexivity|].
      intros Hr. cbn [fst exit_status]. apply Z.mod_small. lia.
    + intros o x rest' Ht ->.
      unfold main_confirm, bind, reading, input, call, pause, input. rewrite Hin. fold go.
      rewrite Hh, Hq. cbn [stdin with_stdin executed tool]. rewrite Ht. reflexivity.
Qed.

(** An answer "N" followed by a no-break space cancels; a command that
    exits with 3 gives the status 3, one killed by signal 9 the status 247. *)
Lemma main_confirm_outcomes_witness :
  let cmd := ["rclone"; "copy"; "a"; "gdrive:b"; "--fast-list"] in
  let n_nbsp := String "N" (String (ascii_of_nat 160) EmptyString) in
  main_confirm cmd (Sample.world Sample.healthy_tool [n_nbsp; "x"])
  = (Ok tt, Sample.world Sample.healthy_tool ["x"])
  /\ main_confirm cmd (Sample.world (fun _ _ => Exited 3 None) [""; "x"])
     = (Raise (SystemExit 3),
        with_executed (Sample.world (fun _ _ => Exited 3 None) ["x"]) [cmd])
  /\ exit_status (fst (main_confirm cmd (Sample.world (fun _ _ => Exited 3 None) [""; "x"])))
     = 3%Z
  /\ exit_status (fst (main_confirm cmd (Sample.world (fun _ _ => Exited (-9) None) [""; "x"])))
     = 247%Z.
Proof.
  intros cmd n_nbsp. split; [|split; [|split]].
  - destruct (main_confirm_outcomes cmd (Sample.world Sample.healthy_tool [n_nbsp; "x"])
                n_nbsp ["x"] eq_refl) as [H _].
    apply H. reflexivity.
  - destruct (main_confirm_outcomes cmd (Sample.world (fun _ _ => Exited 3 None) [""; "x"])
                "" ["x"] eq_refl) as [_ H].
    destruct (H eq_refl eq_refl) as [H1 _].
    apply (H1 3%Z None eq_refl). discriminate.
  - destruct (main_confirm_outcomes cmd (Sample.world (fun _ _ => Exited 3 None) [""; "x"])
                "" ["x"] eq_refl) as [_ H].
    destruct (H eq_refl eq_refl) as [H1 _].
    destruct (H1 3%Z None eq_refl) as (_ & _ & H3); [discriminate|].
    apply H3. lia.
  - destruct (main_confirm_outcomes cmd
                (Sample.world (fun _ _ => Exited (-9) None) [""; "x"])
                "" ["x"] eq_refl) as [_ H].
    destruct (H eq_refl eq_refl) as [H1 _].
    destruct (H1 (-9)%Z None eq_refl) as (_ & H2 & _); [discriminate|].
    rewrite H2. reflexivity.
Defined.

(** ** The start of the run (lines 339-366) *)

(** X15. Without the tool on the search path the run ends with status 2 right
    after the opening pause, and nothing has been invoked. *)
Theorem main_without_rclone (w : World) (x : string) (rest : list string) :
  stdin w = x :: rest ->
  which_rclone w = None \/ which_rclone w = Some "" ->
  main w = (Raise (SystemExit 2), with_stdin w rest)
  /\ exit_status (fst (main w)) = 2%Z.
Proof.
  intros Hin Hw.
  assert (E : main w = (Raise (SystemExit 2), with_stdin w rest)).
  { unfold main, bind at 1, reading at 1, pause, input. rewrite Hin.
    unfold bind at 1, require_rclone. cbn [which_rclone with_stdin].
    destruct Hw as [->| ->]; reflexivity. }
  now rewrite E.
Qed.

Lemma main_without_rclone_witness :
  main (mkWorld ["" ; "s"] [] Sample.healthy_tool None Sample.tree Sample.home_u
          (fun s => s) (mkDate 2024 1 2))
  = (Raise (SystemExit 2),
     mkWorld ["s"] [] Sample.healthy_tool None Sample.tree Sample.home_u
       (fun s => s) (mkDate 2024 1 2)).
Proof.
  apply (main_without_rclone
           (mkWorld ["" ; "s"] [] Sample.healthy_tool None Sample.tree Sample.home_u
              (fun s => s) (mkDate 2024 1 2)) "" ["s"]);
    [reflexivity | now left].
Defined.

(** X16. When no remote is configured and the setup wizard is accepted: a wizard
    that exits with a non-zero code ends the run with that code; a wizard
    that ends well but leaves no remote behind ends the run with status 2.
    The tool has then been invoked two, respectively three times, and never
    for a transfer. *)
Theorem main_setup_failures
    (w : World) (rclone x : string) (rest rest' : list string) :
  let query := [rclone; "listremotes"] in
  let wizard := [rclone; "config"] in
  stdin w = x :: rest ->
  which_rclone w = Some rclone ->
  rclone <> "" ->
  fst (get_remotes rclone (with_stdin w rest)) = Ok [] ->
  ask_yes_no true rest = (Ok true, rest') ->
  (forall rc o,
      tool w (executed w ++ [query]) wizard = Exited rc o -> rc <> 0%Z ->
      main w = (Raise (SystemExit rc),
                with_stdin (with_executed w (executed w ++ [query; wizard])) rest'))
  /\ (forall o,
         tool w (executed w ++ [query]) wizard = Exited 0 o ->
         fst (get_remotes rclone (with_executed w (executed w ++ [query; wizard]))) = Ok [] ->
         main w = (Raise (SystemExit 2),
                   with_stdin (with_executed w (executed w ++ [query; wizard; query])) rest')).
Proof.
  intros query wizard Hin Hwhich Hne Hnone Hask.
  assert (E : main w
              = (rc <- call wizard ;;
                 if negb (Z.eqb rc 0) then raise (SystemExit rc)
                 else
                   remotes <- get_remotes rclone ;;
                   match remotes with
                   | [] => raise (SystemExit 2)
                   | _ => main_with_remotes rclone remotes
                   end)
                  (with_stdin (with_executed w (executed w ++ [query])) rest')).
  { unfold main, bind at 1, reading at 1, pause, input. rewrite Hin.
    unfold bind at 1, require_rclone. cbn [which_rclone with_stdin]. rewrite Hwhich.
    destruct rclone as [|c r]; [contradiction|].
    unfold bind at 1.
    pose proof (get_remotes_world (String c r) (with_stdin w rest)) as Hw.
    destruct (get_remotes (String c r) (with_stdin w rest)) as [res w1].
    simpl in Hnone, Hw. subst res w1.
    unfold bind at 1, reading at 1. cbn [stdin with_executed with_stdin]. rewrite Hask.
    reflexivity. }
  rewrite E. clear E. split.
  - intros rc o Ht Hrc. unfold bind, call. cbn [stdin with_executed with_stdin executed tool].
    rewrite Ht. destruct (Z.eqb_spec rc 0); [contradiction|].
    cbn [negb]. unfold raise, with_executed, with_stdin. cbn. now rewrite <- app_assoc.
  - intros o Ht Hn2. unfold bind at 1, call.
    cbn [stdin with_executed with_stdin executed tool]. rewrite Ht. cbn [Z.eqb negb].
    unfold bind.
    match goal with |- context [get_remotes rclone ?w0] => set (w2 := w0) end.
    pose proof (get_remotes_world rclone w2) as Hw.
    assert (Hf : fst (get_remotes rclone w2) = Ok []); 
      [|destruct (get_remotes rclone w2) as [res w1]].
    + rewrite <- Hn2. unfold w2. unfold get_remotes, check_output.
      cbn [stdin with_executed with_stdin executed tool].
      rewrite <- app_assoc. cbn [app].
      destruct (tool w (executed w ++ [query; wizard]) [rclone; "listremotes"]);
        [destruct (Z.eqb rc 0)|]; reflexivity.
    + simpl in Hf, Hw. subst res w1. unfold raise, with_executed, with_stdin. cbn.
      now rewrite <- !app_assoc.
Qed.

Lemma main_setup_failures_witness :
  main (Sample.world Sample.unconfigured_tool [""; "s"; "x"])
  = (Raise (SystemExit 2),
     with_executed (Sample.world Sample.unconfigured_tool ["x"])
       [["/usr/bin/rclone"; "listremotes"]; ["/usr/bin/rclone"; "config"];
        ["/usr/bin/rclone"; "listremotes"]]).
Proof.
  destruct (main_setup_failures (Sample.world Sample.unconfigured_tool [""; "s"; "x"])
              "/usr/bin/rclone" "" ["s"; "x"] ["x"])
    as [_ H]; [reflexivity | reflexivity | discriminate | reflexivity | reflexivity |].
  apply (H (Some "")); reflexivity.
Defined.

(** ** The health check without a reauthorization (lines 179-182, 214-218) *)

(** X7. A listing that exits with 0 lets the health check return after this one
    invocation, without a prompt.  A listing that fails with a text without
    marker ends the run with status 2 once the diagnostic has been
    acknowledged; the reauthorization is not invoked.  When the tool cannot
    be started at all, its [OSError] leaves the function unhandled. *)
Theorem health_check_without_reauth (w : World) (rclone remote : string) :
  let lsd := lsd_cmd rclone remote in
  let w1 := with_executed w (executed w ++ [lsd]) in
  (forall out, tool w (executed w) lsd = Exited 0 out ->
      remote_ok_or_fix rclone remote w = (Ok tt, w1))
  /\ (forall rc out x rest,
         tool w (executed w) lsd = Exited rc out -> rc <> 0%Z ->
         classify_failure out = Fatal ->
         stdin w = x :: rest ->
         remote_ok_or_fix rclone remote w = (Raise (SystemExit 2), with_stdin w1 rest))
  /\ (tool w (executed w) lsd = SpawnFailed ->
      remote_ok_or_fix rclone remote w = (Raise OSError, w1)).
Proof.
  intros lsd w1.
  destruct (remote_ok_or_fix_other_branches w rclone remote) as [Hok Hfatal].
  split; [|split].
  - intros out Ht. apply Hok. fold lsd. now rewrite Ht.
  - intros rc out x rest Ht Hrc Hc Hin. refine (Hfatal _ x rest Hin).
    fold lsd. rewrite Ht. simpl.
    destruct (Z.eqb_spec rc 0); [contradiction | now rewrite Hc].
  - intros Ht. unfold remote_ok_or_fix, check_output. fold lsd. now rewrite Ht.
Qed.

Lemma health_check_without_reauth_witness :
  remote_ok_or_fix "rclone" "gdrive" (Sample.world Sample.healthy_tool ["x"])
  = (Ok tt, with_executed (Sample.world Sample.healthy_tool ["x"]) [lsd_cmd "rclone" "gdrive"])
  /\ remote_ok_or_fix "rclone" "gdrive"
       (Sample.world (fun _ _ => Exited 1 (Some "directory not found")) ["x"; "y"])
     = (Raise (SystemExit 2),
        with_executed (Sample.world (fun _ _ => Exited 1 (Some "directory not found")) ["y"])
          [lsd_cmd "rclone" "gdrive"]).
Proof.
  split.
  - destruct (health_check_without_reauth (Sample.world Sample.healthy_tool ["x"])
                "rclone" "gdrive") as [H _].
    apply (H (Some "")). reflexivity.
  - destruct (health_check_without_reauth
                (Sample.world (fun _ _ => Exited 1 (Some "directory not found")) ["x"; "y"])
                "rclone" "gdrive") as (_ & H & _).
    apply (H 1%Z (Some "directory not found") "x" ["y"]);
      [reflexivity | discriminate | reflexivity | reflexivity].
Defined.

(** ** What a session invokes (lines 339-466) *)

Section Effects.
Context {A B : Type}.

Lemma effect_ret (P : list (list string) -> Prop) (R : A -> Prop) (a : A) :
  P [] -> R a -> effect P R (ret a).
Proof.
  intros HP HR w. exists []. simpl. rewrite app_nil_r. split; [reflexivity|].
  split; [exact HP|]. intros b E. inversion E; subst. exact HR.
Qed.

Lemma effect_raise (P : list (list string) -> Prop) (R : A -> Prop) (e : exn) :
  P [] -> effect P R (raise e).
Proof.
  intros HP w. exists []. simpl. rewrite app_nil_r. repeat split; auto. discriminate.
Qed.

Lemma effect_reading (P : list (list string) -> Prop) (r : Reader A) :
  P [] -> effect P (fun _ => True) (reading r).
Proof.
  intros HP w. exists []. unfold reading. destruct (r (stdin w)) as [res rest].
  simpl. rewrite app_nil_r. auto.
Qed.

Lemma effect_weaken (P Q : list (list string) -> Prop) (R S : A -> Prop) (m : M A) :
  effect P R m -> (forall n, P n -> Q n) -> (forall a, R a -> S a) -> effect Q S m.
Proof.
  intros H HPQ HRS w. destruct (H w) as (new & E & HP & HR).
  exists new. repeat split; auto.
Qed.

Lemma effect_bind (P Q : list (list string) -> Prop) (R : A -> Prop) (S : B -> Prop)
      (m : M A) (k : A -> M B) :
  effect P R m ->
  (forall a, R a -> effect Q S (k a)) ->
  (forall n, P n -> Q n) ->
  (forall n1 n2, P n1 -> Q n2 -> Q (n1 ++ n2)%list) ->
  effect Q S (bind m k).
Proof.
  intros Hm Hk Hsub Hcat w. unfold bind.
  destruct (Hm w) as (n1 & E1 & HP & HR).
  destruct (m w) as [[a|e] w1]; simpl in E1, HR.
  - destruct (Hk a (HR a eq_refl) w1) as (n2 & E2 & HQ & HS).
    exists (n1 ++ n2)%list. rewrite E2, E1, app_assoc. repeat split; auto.
  - exists n1. simpl. repeat split; auto. discriminate.
Qed.
End Effects.

Lemma effect_call (P : list (list string) -> Prop) (argv : list string) :
  P [argv] -> effect P (fun _ => True) (call argv).
Proof.
  intros HP w. exists [argv]. unfold call.
  destruct (tool w (executed w) argv); simpl; auto.
Qed.

Lemma effect_check_output (P : list (list string) -> Prop) (argv : list string) :
  P [argv] -> effect P (fun _ => True) (check_output argv).
Proof.
  intros HP w. exists [argv]. unfold check_output.
  destruct (tool w (executed w) argv) as [rc out|]; [destruct (Z.eqb rc 0)|]; simpl; auto.
Qed.

(** Administrative logs contain the empty log and are closed under
    concatenation; a session log may be preceded by an administrative one. *)
Lemma admin_nil (rclone : string) : Forall (admin rclone) [].
Proof. constructor. Qed.

Lemma admin_app (rclone : string) (n1 n2 : list (list string)) :
  Forall (admin rclone) n1 -> Forall (admin rclone) n2 ->
  Forall (admin rclone) (n1 ++ n2).
Proof. intros. apply Forall_app. now split. Qed.

Lemma admin_session (rclone : string) (n : list (list string)) :
  Forall (admin rclone) n -> session_log rclone n.
Proof. intros H. exists n, []. rewrite app_nil_r. auto. Qed.

Lemma admin_then_session (rclone : string) (n1 n2 : list (list string)) :
  Forall (admin rclone) n1 -> session_log rclone n2 -> session_log rclone (n1 ++ n2).
Proof.
  intros H1 (pre & post & -> & Hpre & Hpost).
  exists (n1 ++ pre)%list, post. rewrite app_assoc. repeat split; auto.
  now apply admin_app.
Qed.

Create HintDb session.

#[local] Hint Resolve admin_nil admin_app admin_session admin_then_session : session.

(** A bind whose first part makes administrative invocations only. *)
Ltac admin_bind :=
  match goal with
  | |- effect (Forall (admin ?r)) _ _ =>
      eapply (effect_bind (Forall (admin r)));
      [ | intros ? ? | auto with session | auto with session ]
  | |- effect (session_log ?r) _ _ =>
      eapply (effect_bind (Forall (admin r)));
      [ | intros ? ? | auto with session | auto with session ]
  end.

Lemma get_remotes_admin (rclone : string) :
  effect (Forall (admin rclone)) (fun _ => True) (get_remotes rclone).
Proof.
  intros w. exists [[rclone; "listremotes"]].
  rewrite get_remotes_world. simpl. repeat split; auto.
  constructor; [|constructor]. now left.
Qed.

Lemma remote_ok_or_fix_admin (rclone remote : string) :
  effect (Forall (admin rclone)) (fun _ => True) (remote_ok_or_fix rclone remote).
Proof.
  assert (Hl : admin rclone (lsd_cmd rclone remote)) by (right; right; eauto).
  assert (Hr : admin rclone (reconnect_cmd rclone remote)) by (right; right; eauto).
  assert (K : effect (Forall (admin rclone)) (fun _ : unit => True)
                (yes <- reading (ask_yes_no true) ;;
                 if negb yes then raise (SystemExit 2)
                 else
                   rc <- call (reconnect_cmd rclone remote) ;;
                   if negb (Z.eqb rc 0) then raise (SystemExit rc)
                   else
                     check_output (lsd_cmd rclone remote) ;;;
                     reading pause ;;;
                     ret tt)).
  { admin_bind; [apply effect_reading; auto with session|].
    destruct (negb a); [apply effect_raise; auto with session|].
    admin_bind; [apply effect_call; auto|].
    destruct (negb _); [apply effect_raise; auto with session|].
    admin_bind; [apply effect_check_output; auto|].
    admin_bind; [apply effect_reading; auto with session|].
    apply effect_ret; auto with session. }
  assert (F : effect (Forall (admin rclone)) (fun _ : unit => True)
                (reading pause ;;; raise (SystemExit 2))).
  { admin_bind; [apply effect_reading; auto with session|].
    apply effect_raise; auto with session. }
  intros w. unfold remote_ok_or_fix.
  destruct (effect_check_output (Forall (admin rclone)) (lsd_cmd rclone remote)
              ltac:(auto) w) as (n1 & E1 & H1 & _).
  destruct (check_output (lsd_cmd rclone remote) w) as [[s|e] w1]; simpl in E1.
  - exists n1. simpl. auto.
  - destruct e; try (exists n1; simpl; repeat split; auto; discriminate).
    destruct (classify_failure output).
    + destruct (F w1) as (n2 & E2 & H2 & _).
      exists (n1 ++ n2)%list. rewrite E2, E1, app_assoc. auto with session.
    + destruct (K w1) as (n2 & E2 & H2 & _).
      exists (n1 ++ n2)%list. rewrite E2, E1, app_assoc. auto with session.
    + destruct (F w1) as (n2 & E2 & H2 & _).
      exists (n1 ++ n2)%list. rewrite E2, E1, app_assoc. auto with session.
Qed.

Lemma choose_source_folder_silent :
  effect (fun n => n = []) (fun _ => True) choose_source_folder.
Proof.
  intros w. unfold choose_source_folder.
  destruct (first_existing _ _) as [docs|e].
  - destruct (first_existing _ _) as [desk|e].
    + apply (effect_reading (fun n => n = [])). reflexivity.
    + exists []. simpl. rewrite app_nil_r. repeat split; auto; discriminate.
  - exists []. simpl. rewrite app_nil_r. repeat split; auto; discriminate.
Qed.

Lemma choose_source_folder_admin (rclone : string) :
  effect (Forall (admin rclone)) (fun _ => True) choose_source_folder.
Proof.
  eapply effect_weaken; [apply choose_source_folder_silent| |auto].
  intros n ->. constructor.
Qed.

Lemma main_select_remote_admin (rclone : string) (remotes : list string) :
  effect (Forall (admin rclone)) (fun _ => True) (main_select_remote remotes).
Proof.
  unfold main_select_remote.
  destruct (default_remote remotes) as [d|e]; [|apply effect_raise; auto with session].
  admin_bind; [apply effect_reading; auto with session|].
  destruct (is_help _).
  { admin_bind; [apply effect_reading; auto with session|].
    apply effect_ret; auto with session. }
  destruct (elem _ ["q"; "quit"]); [apply effect_ret; auto with session|].
  destruct (elem _ ["n"; "no"]); [|apply effect_ret; auto with session].
  admin_bind; [apply effect_reading; auto with session|].
  match goal with |- effect _ _ (match ?r with EmptyString => _ | _ => _ end) =>
    destruct r end; apply effect_ret; auto with session.
Qed.

Lemma main_backup_admin (rclone remote : string) (src : Path) :
  effect (Forall (admin rclone)) (transfer_cmd rclone) (main_backup rclone remote src).
Proof.
  intros w. exists [].
  assert (E : executed (snd (main_backup rclone remote src w)) = executed w).
  { unfold main_backup, main_versions, bind, reading, input, show_help, pause, input, ret.
    destruct (stdin w) as [|l0 i0]; [reflexivity|]. cbn [stdin with_stdin].
    destruct (ask_yes_no true i0) as [[[|]|e] i1]; [| |reflexivity]; cbn [stdin with_stdin].
    - destruct i1 as [|l1 i1]; [reflexivity|]. cbn [stdin with_stdin].
      destruct (is_help (lower (strip l1))); cbn [stdin with_stdin].
      + destruct i1 as [|x i1]; [reflexivity|]. cbn [stdin with_stdin].
        destruct i1 as [|l2 i1]; [reflexivity|]. cbn [stdin with_stdin fst snd].
        destruct (ask_yes_no true i1) as [[dry|e] i2]; [|reflexivity]. cbn [stdin with_stdin].
        destruct (ask_yes_no true i2) as [[prog|e] i3]; reflexivity.
      + cbn [fst snd].
        destruct (ask_yes_no true i1) as [[dry|e] i2]; [|reflexivity]. cbn [stdin with_stdin].
        destruct (ask_yes_no true i2) as [[prog|e] i3]; reflexivity.
    - cbn [fst snd].
      destruct (ask_yes_no true i1) as [[dry|e] i2]; [|reflexivity]. cbn [stdin with_stdin].
      destruct (ask_yes_no true i2) as [[prog|e] i3]; reflexivity. }
  rewrite E, app_nil_r. split; [reflexivity|]. split; [constructor|].
  intros cmd Hc.
  destruct (main_backup rclone remote src w) as [res w'] eqn:Em. simpl in Hc. subst res.
  destruct (main_backup_result _ _ _ _ _ _ Em) as (_ & dest & vb & uv & dry & prog & -> & _).
  unfold transfer_cmd. repeat eexists.
Qed.

Lemma main_confirm_session (rclone : string) (cmd : list string) :
  transfer_cmd rclone cmd ->
  effect (session_log rclone) (fun _ => True) (main_confirm cmd).
Proof.
  intros Hc. unfold main_confirm.
  assert (S1 : session_log rclone [cmd]).
  { exists [], [cmd]. repeat split; [constructor|]. right. eauto. }
  admin_bind; [apply effect_reading; auto with session|].
  destruct (is_help _).
  { admin_bind; [apply effect_reading; auto with session|].
    apply effect_ret; auto with session. }
  destruct (elem _ _); [apply effect_ret; auto with session|].
  (* the command is the last invocation *)
  intros w. unfold bind, call, reading, pause, input.
  destruct (tool w (executed w) cmd) as [rc o|].
  - exists [cmd]. destruct (negb (Z.eqb rc 0)); simpl.
    + auto.
    + destruct (stdin w); simpl; auto.
  - exists [cmd]. simpl. repeat split; auto; discriminate.
Qed.

Lemma main_with_remote_session (rclone remote : string) :
  effect (session_log rclone) (fun _ => True) (main_with_remote rclone remote).
Proof.
  unfold main_with_remote.
  admin_bind; [apply remote_ok_or_fix_admin|].
  admin_bind; [apply choose_source_folder_admin|].
  destruct a0 as [src|]; [|apply effect_ret; auto with session].
  admin_bind; [apply main_backup_admin|].
  now apply main_confirm_session.
Qed.

Lemma main_with_remotes_session (rclone : string) (remotes : list string) :
  effect (session_log rclone) (fun _ => True) (main_with_remotes rclone remotes).
Proof.
  unfold main_with_remotes.
  admin_bind; [apply main_select_remote_admin|].
  destruct a as [remote|]; [apply main_with_remote_session|].
  apply effect_ret; auto with session.
Qed.

Lemma admin_not_transfer (rclone : string) (argv : list string) :
  admin rclone argv -> is_transfer argv = false.
Proof.
  intros [->|[->|(remote & [->| ->])]]; reflexivity.
Qed.

Lemma session_log_transfers (rclone : string) (new : list (list string)) :
  session_log rclone new ->
  length (filter is_transfer new) <= 1
  /\ Forall (fun argv => nth_error argv 0 = Some rclone
                         /\ elem (nth 1 argv "") ["listremotes"; "config"; "lsd"; "copy"] = true)
            new.
Proof.
  intros (pre & post & -> & Hpre & Hpost).
  assert (F : filter is_transfer pre = []).
  { induction Hpre as [|a pre Ha _ IH]; [reflexivity|].
    simpl. now rewrite (admin_not_transfer _ _ Ha). }
  rewrite filter_app, F. split.
  - destruct Hpost as [->|(cmd & -> & Hc)]; simpl; [lia|].
    destruct (is_transfer cmd); simpl; lia.
  - apply Forall_app. split.
    + eapply Forall_impl; [|exact Hpre].
      intros argv [->|[->|(remote & [->| ->])]]; split; reflexivity.
    + destruct Hpost as [->|(cmd & -> & Hc)]; constructor; [|constructor].
      destruct Hc as (src & remote & dest & uv & vb & today & dry & prog & ->).
      destruct uv, dry, prog; split; reflexivity.
Qed.

(** X24. Whatever the user types and whatever the tool answers, one run of [main]
    invokes the tool found on the search path only for the query of the
    remotes, the setup wizard, the listing of a remote and its
    reauthorization, followed by at most one transfer, which is a command
    made by [build_cmd]: its verb is [copy].  No other verb is ever used, and
    nothing is invoked after the transfer. *)
Theorem main_session_log (w : World) :
  exists new,
    executed (snd (main w)) = (executed w ++ new)%list
    /\ (which_rclone w = None -> new = [])
    /\ (forall rclone, which_rclone w = Some rclone ->
          session_log rclone new
          /\ length (filter is_transfer new) <= 1
          /\ Forall (fun argv =>
                       nth_error argv 0 = Some rclone
                       /\ elem (nth 1 argv "") ["listremotes"; "config"; "lsd"; "copy"] = true)
                    new).
Proof.
  assert (K : forall rclone,
             effect (session_log rclone) (fun _ : unit => True)
               (remotes <- get_remotes rclone ;;
                match remotes with
                | [] =>
                    yes <- reading (ask_yes_no true) ;;
                    if negb yes then ret tt
                    else
                      rc <- call [rclone; "config"] ;;
                      if negb (Z.eqb rc 0) then raise (SystemExit rc)
                      else
                        remotes <- get_remotes rclone ;;
                        match remotes with
                        | [] => raise (SystemExit 2)
                        | _ => main_with_remotes rclone remotes
                        end
                | _ => main_with_remotes rclone remotes
                end)).
  { intros rclone.
    admin_bind; [apply get_remotes_admin|].
    destruct a as [|r0 remotes]; [|apply main_with_remotes_session].
    admin_bind; [apply effect_reading; auto with session|].
    destruct (negb a); [apply effect_ret; auto with session|].
    admin_bind; [apply effect_call; repeat constructor; right; now left|].
    destruct (negb _); [apply effect_raise; auto with session|].
    admin_bind; [apply get_remotes_admin|].
    destruct a1; [apply effect_raise; auto with session|].
    apply main_with_remotes_session. }
  unfold main, bind at 1, reading at 1, pause, input.
  destruct (stdin w) as [|x rest] eqn:Hin.
  { exists []. simpl. rewrite app_nil_r. split; [reflexivity|]. split; [reflexivity|].
    intros rclone _.
    split; [exists [], []; repeat split; auto|]. split; [simpl; lia | constructor]. }
  unfold bind at 1, require_rclone. cbn [which_rclone with_stdin].
  destruct (which_rclone w) as [[|c r]|] eqn:Hw.
  - exists []. simpl. rewrite app_nil_r. split; [reflexivity|]. split; [reflexivity|].
    intros rclone E. inversion E; subst.
    split; [exists [], []; repeat split; auto|]. split; [simpl; lia | constructor].
  - destruct (K (String c r) (with_stdin w rest)) as (new & E & HS & _).
    exists new. split; [exact E|]. split; [discriminate|].
    intros rclone Er. inversion Er; subst.
    split; [exact HS|]. now apply session_log_transfers.
  - exists []. simpl. rewrite app_nil_r. split; [reflexivity|]. split; [reflexivity|].
    discriminate.
Qed.

Lemma main_session_log_witness :
  let w := Sample.world Sample.healthy_tool
             [""; ""; ""; "1"; "b"; ""; "n"; ""; ""; ""; ""] in
  exists new, executed (snd (main w)) = new /\ length (filter is_transfer new) <= 1.
Proof.
  intros w. destruct (main_session_log w) as (new & E & _ & H).
  destruct (H "/usr/bin/rclone" eq_refl) as (_ & L & _).
  exists new. split; [rewrite E; reflexivity | exact L].
Defined.

(** ** The remote the run goes on with (lines 369-389) *)

Lemma default_remote_configured (remotes : list string) (d : string) :
  default_remote remotes = Ok d -> In d remotes.
Proof.
  unfold default_remote. destruct (elem "gdrive" remotes) eqn:E.
  - intros H; inversion H; subst. now apply elem_In.
  - destruct remotes; intros H; inversion H; subst. now left.
Qed.

(** X17. The remote a run goes on with, be it the default or one picked from the
    list, is always one of the configured remotes; the selection itself
    invokes nothing. *)
Theorem main_select_remote_configured
    (remotes : list string) (w w' : World) (remote : string) :
  main_select_remote remotes w = (Ok (Some remote), w') ->
  In remote remotes /\ executed w' = executed w.
Proof.
  unfold main_select_remote.
  destruct (default_remote remotes) as [d|e] eqn:Hd; [|discriminate].
  apply default_remote_configured in Hd.
  unfold bind, reading, input, show_help, pause, input, ret.
  destruct (stdin w) as [|l i]; [discriminate|]. cbn [stdin with_stdin].
  destruct (is_help _).
  { destruct i; discriminate. }
  destruct (elem _ ["q"; "quit"]); [discriminate|].
  destruct (elem _ ["n"; "no"]).
  - cbn [stdin with_stdin].
    destruct (pick_remote_ends remotes i) as [(r & rest & E & Hr)|[E|(l0 & rest & E & _)]];
      rewrite E; [|discriminate|discriminate].
    destruct r as [|c r]; [discriminate|].
    intros H; inversion H; subst. destruct Hr as [Hr|Hr]; [discriminate|].
    split; [exact Hr | reflexivity].
  - intros H; inversion H; subst. split; [exact Hd | reflexivity].
Qed.

Lemma main_select_remote_configured_witness :
  In "work" ["gdrive"; "work"]
  /\ executed (Sample.world Sample.healthy_tool ["x"])
     = executed (Sample.world Sample.healthy_tool ["n"; "9"; ""; "work"; "x"]).
Proof.
  apply (main_select_remote_configured ["gdrive"; "work"]
           (Sample.world Sample.healthy_tool ["n"; "9"; ""; "work"; "x"])
           (Sample.world Sample.healthy_tool ["x"]) "work").
  reflexivity.
Defined.

(** ** The choice of the source (lines 285-332) *)




Section ChooseOutcome.
Variables (f : FileSystem) (e : string -> string) (docs desk : option Path).
Hypothesis docs_exists : forall d, docs = Some d -> exists_ f d = Some true.
Hypothesis desk_exists : forall d, desk = Some d -> exists_ f d = Some true.



End ChooseOutcome.


(** With a home directory whose shortcut folders cannot be tested the menu
    fails before it asks anything; with the sample home it leads into the
    browser. *)
Example choose_source_folder_runs :
  fst (choose_source_folder
         (mkWorld ["q"] [] Sample.healthy_tool (Some "rclone")
            (mkFS (fun _ => None) (fun _ => None) (fun _ => None))
            Sample.home_u (fun s => s) (mkDate 2024 1 2)))
  = Raise OSError
  /\ fst (choose_source_folder (Sample.world Sample.healthy_tool [""; "2"; "b"]))
     = Ok (Some Sample.beta).
Proof. split; reflexivity. Qed.

(** ** A transfer comes after the health check (lines 391-454) *)

Lemma main_backup_silent (rclone remote : string) (src : Path) :
  effect (fun n => n = []) (transfer_to rclone src remote) (main_backup rclone remote src).
Proof.
  intros w. exists []. split; [|split; [reflexivity|]].
  - (* prompting makes no invocation *)
    unfold main_backup, main_versions, bind, reading, input, show_help, pause, input, ret.
    destruct (stdin w) as [|l0 i0]; [symmetry; apply app_nil_r|]. cbn [stdin with_stdin].
    repeat match goal with
           | |- context [ask_yes_no true ?i] =>
               destruct (ask_yes_no true i) as [[[|]|?] ?]; cbn [stdin with_stdin fst snd]
           | |- context [match ?i with [] => _ | _ :: _ => _ end] =>
               destruct i; cbn [stdin with_stdin fst snd]
           | |- context [is_help ?a] => destruct (is_help a); cbn [stdin with_stdin fst snd]
           end; symmetry; apply app_nil_r.
  - intros cmd Hc.
    destruct (main_backup rclone remote src w) as [res w'] eqn:Em. simpl in Hc. subst res.
    destruct (main_backup_result _ _ _ _ _ _ Em) as (_ & dest & vb & uv & dry & prog & -> & _).
    unfold transfer_to. repeat eexists.
Qed.

Lemma main_confirm_log (cmd : list string) :
  effect (fun n => n = [] \/ n = [cmd]) (fun _ => True) (main_confirm cmd).
Proof.
  intros w. unfold main_confirm, bind, reading, input, show_help, pause, input, call, ret, raise.
  destruct (stdin w) as [|l i]; [exists []; simpl; rewrite app_nil_r; auto|].
  cbn [stdin with_stdin].
  destruct (is_help _).
  { exists []. destruct i; simpl; rewrite app_nil_r; auto. }
  destruct (elem _ _); [exists []; simpl; rewrite app_nil_r; auto|].
  cbn [stdin with_stdin executed tool].
  exists [cmd]. destruct (tool w (executed w) cmd) as [rc o|]; [|simpl; auto].
  destruct (negb (Z.eqb rc 0)); [simpl; auto|].
  destruct i; simpl; auto.
Qed.

(** After the health check of [remote], whatever follows invokes nothing or
    exactly one transfer to that remote. *)
Lemma after_health_check (rclone remote : string) :
  effect (fun n => n = [] \/ exists src cmd, n = [cmd] /\ transfer_to rclone src remote cmd)
         (fun _ => True)
         (source_path <- choose_source_folder ;;
          match source_path with
          | None => ret tt
          | Some src =>
              cmd <- main_backup rclone remote src ;;
              main_confirm cmd
          end).
Proof.
  eapply (effect_bind (fun n => n = [])).
  - apply choose_source_folder_silent.
  - intros [src|] _; [|apply effect_ret; auto].
    eapply (effect_bind (fun n => n = [])).
    + apply main_backup_silent.
    + intros cmd Hc. eapply effect_weaken; [apply main_confirm_log| |auto].
      intros n [->| ->]; [now left | right; eauto].
    + intros n ->. now left.
    + intros n1 n2 -> H. exact H.
  - intros n ->. now left.
  - intros n1 n2 -> H. exact H.
Qed.

(** X23. A transfer is started only after the health check of the chosen remote
    has ended well, and it copies to that very remote: every transfer that
    the part of the run after the choice of the remote invokes is a command
    of [build_cmd] for that remote, and the health check had returned. *)
Theorem transfer_only_after_health_check (rclone remote : string) (w : World) :
  exists new,
    executed (snd (main_with_remote rclone remote w)) = (executed w ++ new)%list
    /\ forall argv,
         In argv new -> is_transfer argv = true ->
         fst (remote_ok_or_fix rclone remote w) = Ok tt
         /\ exists src, transfer_to rclone src remote argv.
Proof.
  unfold main_with_remote, bind at 1.
  destruct (remote_ok_or_fix_admin rclone remote w) as (n1 & E1 & H1 & _).
  assert (Hn1 : forall argv, In argv n1 -> is_transfer argv = true -> False).
  { intros argv Hin Ht. rewrite Forall_forall in H1.
    rewrite (admin_not_transfer rclone argv (H1 argv Hin)) in Ht. discriminate. }
  destruct (remote_ok_or_fix rclone remote w) as [[[]|e] w1]; simpl in E1.
  - destruct (after_health_check rclone remote w1) as (n2 & E2 & H2 & _).
    exists (n1 ++ n2)%list. rewrite E2, E1, app_assoc. split; [reflexivity|].
    intros argv Hin Ht. split; [reflexivity|].
    apply in_app_or in Hin. destruct Hin as [Hin|Hin]; [exfalso; eauto|].
    destruct H2 as [->|(src & cmd & -> & Hc)]; [contradiction|].
    destruct Hin as [<-|[]]. eauto.
  - exists n1. simpl. split; [exact E1|].
    intros argv Hin Ht. exfalso; eauto.
Qed.

Lemma transfer_only_after_health_check_witness :
  let w := Sample.world Sample.expired_tool ["s"; ""; ""; "b"; ""; "n"; "n"; "n"; ""; ""] in
  fst (remote_ok_or_fix "rclone" "gdrive" w) = Ok tt
  /\ exists src,
       transfer_to "rclone" src "gdrive"
         ["rclone"; "copy"; "/home/u/Documents"; "gdrive:Backup0RG"; "--fast-list"].
Proof.
  intros w.
  destruct (transfer_only_after_health_check "rclone" "gdrive" w) as (new & E & H).
  apply H; [|reflexivity].
  vm_compute in E. apply app_inv_head with (l := []) in E. subst new.
  right. right. right. now left.
Defined.

(** ** Descending and the listed subfolders (lines 225-232, 272-275) *)

Lemma select_dirs_facts (f : FileSystem) (entries ds : list Path) :
  select_dirs f entries = Some ds ->
  forall q, In q ds -> is_dir f q = Some true /\ startswith (name q) "." = false.
Proof.
  revert ds. induction entries as [|p entries IH]; simpl; intros ds H q Hq.
  - inversion H; subst. contradiction.
  - destruct (is_dir f p) as [isd|] eqn:Ed; [|discriminate].
    destruct (select_dirs f entries) as [ds'|]; [|discriminate].
    inversion H; subst; clear H.
    unfold visible_dir in Hq.
    destruct isd; simpl in Hq; [|eauto].
    destruct (startswith (name p) ".") eqn:Eh; simpl in Hq; [eauto|].
    destruct Hq as [<-|Hq]; [auto | eauto].
Qed.

Lemma listed_subfolder (f : FileSystem) (dir q : Path) :
  In q (list_subfolders f dir) ->
  q = child dir (name q)
  /\ parent q = dir
  /\ is_dir f q = Some true
  /\ startswith (name q) "." = false.
Proof.
  intros Hq. pose proof (list_subfolders_children f dir q Hq) as Hc.
  split; [exact Hc|]. split; [rewrite Hc; apply parent_child|].
  unfold list_subfolders in Hq.
  destruct (iterdir f dir) as [names|]; [|contradiction].
  destruct (select_dirs f (map (child dir) names)) as [ds|] eqn:E; [|contradiction].
  eapply Permutation_in in Hq; [|apply sorted_by_perm].
  exact (select_dirs_facts f _ _ E q Hq).
Qed.

(** X8. Whatever the state of the file system, every path in a listing is the
    listed directory extended by one name, is a directory, and has a name
    without a leading dot. *)
Theorem list_subfolders_sound (f : FileSystem) (dir q : Path) :
  In q (list_subfolders f dir) ->
  q = child dir (name q)
  /\ parent q = dir
  /\ is_dir f q = Some true
  /\ startswith (name q) "." = false.
Proof. exact (listed_subfolder f dir q). Qed.

Lemma list_subfolders_sound_witness :
  Sample.beta = child Sample.documents (name Sample.beta)
  /\ parent Sample.beta = Sample.documents
  /\ is_dir Sample.tree Sample.beta = Some true
  /\ startswith (name Sample.beta) "." = false.
Proof.
  apply (list_subfolders_sound Sample.tree Sample.documents Sample.beta).
  right. now left.
Defined.



(** ** The progress flag (lines 427-428) *)

(** X21. The flags of the command contain [--progress] exactly when the progress
    display was asked for, and then it is the last word of the command. *)
Theorem build_cmd_progress_flag
    (rclone : string) (src : Path) (remote dest V : string) (today : date)
    (use_versions dry_run show_progress : bool) :
  let cmd := build_cmd rclone src remote dest use_versions V today dry_run show_progress in
  (In "--progress" (flags_of cmd) <-> show_progress = true)
  /\ (show_progress = true -> last cmd "" = "--progress")
  /\ length cmd = 5 + (if use_versions then 2 else 0) + (if dry_run then 1 else 0)
                  + (if show_progress then 1 else 0).
Proof.
  cbv zeta. split; [|split].
  - assert (N : remote ++ ":" ++ V ++ "/" ++ strftime_Ymd today <> "--progress")
      by (apply target_not_flag; reflexivity).
    split.
    + destruct use_versions, dry_run, show_progress; unfold build_cmd, flags_of; simpl;
        intros H; try reflexivity; intuition (try discriminate; congruence).
    + intros ->. destruct use_versions, dry_run; unfold build_cmd, flags_of; simpl; tauto.
  - intros ->. destruct use_versions, dry_run; reflexivity.
  - destruct use_versions, dry_run, show_progress; reflexivity.
Qed.
